(** * recona-go: the authenticated transport, the client configuration and
      the paginated search aggregator

    A shallow embedding of the request engine of the recona-go client
    library: [internal.MakeAuthenticatedRequest] and [internal.DecodeJSON]
    (internal/http.go), the client constructor and its rate-limit setter
    (client.go, package reconago) and the [GetDetails] / [Search] /
    [SearchAll] methods of the resource services (services/domain.go,
    services/host.go).  Beside them stand the client's [MakeRequest] and
    the methods of the certificate, CVE, autonomous-system and account
    services.

    Go values are modelled as follows.
    - [int] is [Z].  The only arithmetic is [maxResults - offset] and
      [offset += len(page)] with [0 <= offset < 10000] and [len] the length
      of a slice of pointers, which is far below [2^63]; no operation of the
      modelled code can wrap.
    - [float64] is [spec_float] (IEEE 754 binary64, [prec = 53],
      [emax = 1024]), compared with [SFleb].
    - [string] and [[]byte] are [string]; a slice is a [list], the nil slice
      is [[]]; a pointer that may be nil is an [option].
    - a Go result pair [(v, err)] is a Coq pair whose second component is
      [option error]; a nil-pointer dereference is the outcome [Panic].
    - [http.Header] is a [gmap string (list string)]. *)

From stdpp Require Import gmap strings list.
From Stdlib Require Import ZArith String Ascii DecimalString Lia Sorted.
From Stdlib Require Import Floats.SpecFloat.

Local Open Scope string_scope.
Local Open Scope list_scope.
Local Open Scope Z_scope.

(** ** Go runtime: errors, formatting verbs, readers *)

(** [errorString] is the error of [errors.New] and of [fmt.Errorf] without
    [%w]; [wrapError] is the error of [fmt.Errorf] with one [%w] operand: it
    keeps the formatted message and the wrapped cause. *)
Inductive error : Type :=
| errorString (s : string)
| wrapError (msg : string) (err : error).

Definition Error (e : error) : string :=
  match e with
  | errorString s => s
  | wrapError msg _ => msg
  end.

Definition Unwrap (e : error) : option error :=
  match e with
  | errorString _ => None
  | wrapError _ err => Some err
  end.

(** The verb [%d] applied to an [int]. *)
Definition fmt_d (z : Z) : string := NilZero.string_of_int (Z.to_int z).

(** [fmt.Errorf(prefix + "%w", err)]: the message is the prefix followed by
    the text of the cause. *)
Definition Errorf_w (prefix : string) (err : error) : error :=
  wrapError (prefix +:+ Error err) err.

(** [strings.HasPrefix] and [strings.Contains]. *)
Fixpoint HasPrefix (s prefix : string) : bool :=
  match prefix, s with
  | EmptyString, _ => true
  | String a prefix', String b s' => (Ascii.eqb a b && HasPrefix s' prefix')%bool
  | String _ _, EmptyString => false
  end.

Fixpoint Contains (s substr : string) : bool :=
  (HasPrefix s substr ||
   match s with
   | EmptyString => false
   | String _ s' => Contains s' substr
   end)%bool.

(** The value delivered by a nil-pointer dereference. *)
Definition nilDereference : string :=
  "runtime error: invalid memory address or nil pointer dereference".

(** The result of a standard-library call that yields either a value or an
    error, never both and never neither. *)
Inductive result (A : Type) : Type :=
| Ok (a : A)
| Err (e : error).
Arguments Ok {A} a.
Arguments Err {A} e.

Inductive outcome (A : Type) : Type :=
| Return (a : A)
| Panic (msg : string).
Arguments Return {A} a.
Arguments Panic {A} msg.

(** An [io.ReadCloser]: the bytes the stream delivers, the error (if any)
    that ends the stream instead of [io.EOF], and whether [Close] was
    called. *)
Record ReadCloser : Type := {
  data : string;
  failure : option error;
  closed : bool
}.

(** [io.ReadAll]: the bytes read up to [io.EOF] or up to the first error,
    together with that error. *)
Definition ReadAll (r : ReadCloser) : string * option error :=
  (data r, failure r).

Definition Close (r : ReadCloser) : ReadCloser :=
  {| data := data r; failure := failure r; closed := true |}.

(** [context.Context], as far as the engine looks at it: the error returned
    by [ctx.Err()]. *)
Record Context : Type := { ctxErr : option error }.

Definition Background : Context := {| ctxErr := None |}.

(** ** net/http *)

Module http.

Abbreviation Header := (gmap string (list string)).

(** [Header.Set]: the entry of the key is replaced by the single value.  The
    keys used by the library are already in canonical MIME form, so the
    canonicalisation done by [Set] leaves them as they are. *)
Definition Header_Set (h : Header) (key value : string) : Header :=
  <[key := [value]]> h.

(** [Header.Get]: the first value of the key, [EmptyString] when there is none. *)
Definition Header_Get (h : Header) (key : string) : string :=
  match h !! key with
  | Some (v :: _) => v
  | _ => EmptyString
  end.

(** The fields of [http.Request] that the library reads or sets.  [URL] is
    the URL text the request was created from; net/http keeps the parsed
    form of that text, which may spell it differently on the wire. *)
Record Request : Type := {
  ReqCtx : Context;
  Method : string;
  URL : string;
  ReqHeader : Header;
  ReqBody : option string
}.

(** A response as [http.Client.Do] returns it: its body is never nil.  A
    response put together by hand with a nil body is not modelled. *)
Record Response : Type := {
  StatusCode : Z;
  Body : ReadCloser
}.

(** [time.Duration] is a number of nanoseconds. *)
Definition Duration : Type := Z.
Definition Second : Duration := 1000000000.

(** The fields of [http.Transport] and [http.Client] that the library
    sets. *)
Record Transport : Type := {
  MaxIdleConns : Z;
  MaxIdleConnsPerHost : Z;
  IdleConnTimeout : Duration;
  DisableCompression : bool
}.

Record Client : Type := {
  Timeout : Duration;
  ClientTransport : Transport
}.

(** What the transport writes on the wire for a header value.  A value
    with a control character other than tab is refused before anything is
    written ([httpguts.ValidHeaderFieldValue], checked by the transport);
    otherwise ([Header.writeSubset]) newlines become spaces, then leading and
    trailing ASCII white space is removed ([textproto.TrimString]). *)
Definition isCTL (c : ascii) : bool :=
  ((nat_of_ascii c <? 32)%nat || Ascii.eqb c "127")%bool.

Definition isLWS (c : ascii) : bool :=
  (Ascii.eqb c " " || Ascii.eqb c "009")%bool.

Fixpoint ValidHeaderFieldValue (v : string) : bool :=
  match v with
  | String c v' => (negb (isCTL c && negb (isLWS c)) && ValidHeaderFieldValue v')%bool
  | EmptyString => true
  end.

Definition isASCIISpace (c : ascii) : bool :=
  (Ascii.eqb c " " || Ascii.eqb c "009" || Ascii.eqb c "010" || Ascii.eqb c "013")%bool.

Fixpoint trimLeft (s : string) : string :=
  match s with
  | String c s' => if isASCIISpace c then trimLeft s' else s
  | EmptyString => EmptyString
  end.

Fixpoint trimRight (s : string) : string :=
  match s with
  | String c s' =>
      match trimRight s' with
      | EmptyString => if isASCIISpace c then EmptyString else String c EmptyString
      | t => String c t
      end
  | EmptyString => EmptyString
  end.

Definition TrimString (s : string) : string := trimRight (trimLeft s).

Fixpoint headerNewlineToSpace (s : string) : string :=
  match s with
  | String c s' =>
      String (if (Ascii.eqb c "010" || Ascii.eqb c "013")%bool then " "%char else c)
             (headerNewlineToSpace s')
  | EmptyString => EmptyString
  end.

Definition wireValue (v : string) : option string :=
  if ValidHeaderFieldValue v then Some (TrimString (headerNewlineToSpace v))
  else None.

End http.
Import http.

(** ** Package internal (internal/http.go) *)

Module internal.

Definition BaseURL : string := "https://api.recona.io".
Definition authorizationHeaderName : string := "Authorization".
Definition authorizationType : string := "Bearer ".
Definition contentTypeHeaderName : string := "Content-Type".
Definition acceptHeaderName : string := "Accept".
Definition defaultContentType : string := "application/json".
Definition DefaultRateLimit : Z := 10.
Definition DefaultBurst : Z := 2.

Section Transport.

(** The request body is an [interface{}]; [B] is the type of the non-nil
    values passed, [Marshal] is [json.Marshal] on them. *)
Variable B : Type.
Variable Marshal : B -> result string.

(** [client.Do(req)]: the exchange with the server, which yields a
    response or an error. *)
Variable Do : http.Client -> Request -> result Response.

(** The checks of [http.NewRequestWithContext] on the method, the context
    and the URL; [None] when the request line is accepted. *)
Variable checkRequest : Context -> string -> string -> option error.

(** [http.NewRequestWithContext]: an empty method means GET, and the new
    request starts with an empty header. *)
Definition NewRequestWithContext (ctx : Context) (method url : string)
    (body : option string) : result Request :=
  match checkRequest ctx method url with
  | Some err => Err err
  | None =>
      Ok {| ReqCtx := ctx;
            Method := if String.eqb method EmptyString then "GET" else method;
            URL := url;
            ReqHeader := ∅;
            ReqBody := body |}
  end.

(** Lines 31-48 of [MakeAuthenticatedRequest]: the body is serialised, the
    request is created and the three headers are set. *)
Definition prepareRequest (ctx : Context) (method url token : string)
    (body : option B) : result Request :=
  let marshalled : result (option string) :=
    match body with
    | None => Ok None
    | Some b =>
        match Marshal b with
        | Err err => Err (Errorf_w "failed to marshal request body: " err)
        | Ok jsonData => Ok (Some jsonData)
        end
    end in
  match marshalled with
  | Err err => Err err
  | Ok reqBody =>
      match NewRequestWithContext ctx method url reqBody with
      | Err err => Err (Errorf_w "failed to create request: " err)
      | Ok req =>
          let h := ReqHeader req in
          let h := Header_Set h authorizationHeaderName (authorizationType +:+ token) in
          let h := Header_Set h contentTypeHeaderName defaultContentType in
          let h := Header_Set h acceptHeaderName defaultContentType in
          Ok {| ReqCtx := ReqCtx req; Method := Method req; URL := URL req;
                ReqHeader := h; ReqBody := ReqBody req |}
      end
  end.

Definition MakeAuthenticatedRequest (ctx : Context) (client : option http.Client)
    (method url token : string) (body : option B)
    : option Response * option error :=
  match client with
  | None => (None, Some (errorString "request failed, http client is empty"))
  | Some c =>
      match prepareRequest ctx method url token body with
      | Err err => (None, Some err)
      | Ok req =>
          match Do c req with
          | Err err => (None, Some (Errorf_w "request failed: " err))
          | Ok resp =>
              if 400 <=? StatusCode resp then
                match ReadAll (Body resp) with
                | (_, Some _) =>
                    (None, Some (errorString
                      ("API error " +:+ fmt_d (StatusCode resp)
                                    +:+ ": failed to read response body")))
                | (bodyBytes, None) =>
                    (None, Some (errorString
                      ("API error " +:+ fmt_d (StatusCode resp)
                                    +:+ ": " +:+ bodyBytes)))
                end
              else (Some resp, None)
          end
      end
  end.

End Transport.

(** Lines 50-63 of [MakeAuthenticatedRequest] on their own: what the
    function returns for the answer that [client.Do] gave. *)
Definition classify (answer : result Response) : option Response * option error :=
  match answer with
  | Err err => (None, Some (Errorf_w "request failed: " err))
  | Ok resp =>
      if 400 <=? StatusCode resp then
        match ReadAll (Body resp) with
        | (_, Some _) =>
            (None, Some (errorString
              ("API error " +:+ fmt_d (StatusCode resp)
                            +:+ ": failed to read response body")))
        | (bodyBytes, None) =>
            (None, Some (errorString
              ("API error " +:+ fmt_d (StatusCode resp)
                            +:+ ": " +:+ bodyBytes)))
        end
      else (Some resp, None)
  end.

(** [DecodeJSON] is [json.NewDecoder(r).Decode(v)].  Every caller passes the
    address of a nil pointer [*T]; [Decode] is the library call on such a
    target and yields the pointer after the call and the error. *)
Definition DecodeJSON {T : Type}
    (Decode : ReadCloser -> option T * option error) (r : ReadCloser)
    : option T * option error :=
  Decode r.

(** The interface [Client] (internal/client.go).  An implementation talks to
    the network (or is a test double with recorded expectations), so a call
    also yields the implementation's next state.  [B] is the type of the
    non-nil request bodies. *)
Class Client (B C : Type) : Type := {
  MakeRequest : C -> Context -> string -> string -> option B ->
                (option Response * option error) * C
}.

(** Two states of a client that answer every request alike. *)
Definition sameAnswers {B C : Type} `{!Client B C} (c c' : C) : Prop :=
  forall ctx method path body,
    fst (MakeRequest c ctx method path body) = fst (MakeRequest c' ctx method path body).

End internal.

(** ** Package models (models/common.go, models/domain.go, models/host.go) *)

Module models.

Record Search : Type := {
  Query : string;
  Filters : string
}.

Record Pagination : Type := {
  Limit : Z;
  Offset : Z
}.

(** [SearchRequest] embeds [Search] and [Pagination]. *)
Record SearchRequest : Type := {
  SearchRequest_Search : Search;
  SearchRequest_Pagination : Pagination
}.

Record TotalItems : Type := {
  Value : Z;
  Relation : string
}.

Record PaginationResponse : Type := {
  PaginationResponse_TotalItems : TotalItems;
  PaginationResponse_Pagination : Pagination
}.

(** [DomainsResponse] and [HostsResponse]: the pagination data and the slice
    of record pointers ([Domains], resp. [Hosts]).  [T] is the record struct
    ([models.Domain], [models.Host]), whose fields the engine never reads. *)
Record RecordsResponse (T : Type) : Type := {
  RecordsResponse_PaginationResponse : PaginationResponse;
  Records : list (option T)
}.
Arguments RecordsResponse_PaginationResponse {T} _.
Arguments Records {T} _.

End models.

(** ** Package services (services/domain.go, services/host.go)

    [DomainService] and [HostService] have the same three methods; they
    differ in the record type, in the word used in the error messages
    ("domain", "host") and in the endpoint ("/domains", "/hosts").  The
    section below is the common text, instantiated for both at its end.

    A service holds its client, whose state moves on with every request, so
    each method also yields the service afterwards.  The deferred
    [resp.Body.Close()] acts on a response that no result refers to and is
    left out. *)

Module services.
Import models.

Section Service.

Context {C : Type} `{!internal.Client SearchRequest C}.

(** The record struct, its name in the messages, its endpoint, and the
    JSON decoding of a response body into [*T] and into the response
    struct. *)
Variable T : Type.
Variable name endpoint : string.
Variable DecodeRecord : ReadCloser -> option T * option error.
Variable DecodeResponse :
  ReadCloser -> option (RecordsResponse T) * option error.

Record Service : Type := { client : option C }.

Definition GetDetails (s : Service) (ctx : Context) (id : string)
    : outcome (option T * option error) * Service :=
  match client s with
  | None => (Panic nilDereference, s)
  | Some c =>
      let '((resp, err), c') :=
        internal.MakeRequest c ctx "GET" (endpoint +:+ "/" +:+ id) None in
      let s' := {| client := Some c' |} in
      match err with
      | Some e =>
          (Return (None, Some (Errorf_w
             ("failed to get " +:+ name +:+ " details for ID " +:+ id +:+ ": ") e)), s')
      | None =>
          match resp with
          | None => (Panic nilDereference, s')
          | Some r =>
              match internal.DecodeJSON DecodeRecord (Body r) with
              | (_, Some e) =>
                  (Return (None, Some (Errorf_w
                     ("failed to decode " +:+ name +:+ " details response: ") e)), s')
              | (record, None) => (Return (record, None), s')
              end
          end
      end
  end.

Definition Search (s : Service) (ctx : Context) (params : SearchRequest)
    : outcome (option (RecordsResponse T) * option error) * Service :=
  match client s with
  | None => (Panic nilDereference, s)
  | Some c =>
      let '((resp, err), c') :=
        internal.MakeRequest c ctx "POST" (endpoint +:+ "/search") (Some params) in
      let s' := {| client := Some c' |} in
      match err with
      | Some e =>
          (Return (None, Some (Errorf_w
             ("failed to search " +:+ name +:+ " records: ") e)), s')
      | None =>
          match resp with
          | None => (Panic nilDereference, s')
          | Some r =>
              match internal.DecodeJSON DecodeResponse (Body r) with
              | (_, Some e) =>
                  (Return (None, Some (Errorf_w
                     ("failed to decode " +:+ name +:+ " search response: ") e)), s')
              | (result, None) => (Return (result, None), s')
              end
          end
      end
  end.

Definition pageSize : Z := 100.
Definition maxResults : Z := 10000.

(** One entry per call of [Search] made by [SearchAll]: the request and
    what the call gave back. *)
Definition call : Type :=
  SearchRequest * outcome (option (RecordsResponse T) * option error).

(** What one invocation of [SearchAll] amounts to: its result, the calls of
    [Search] it made, in order, and the service afterwards. *)
Record run : Type := {
  returned : outcome (list (option T) * option error);
  calls : list call;
  after : Service
}.

(** The [for offset < maxResults] loop, entered with the current values of
    [offset], [limit] and the accumulator.  Every iteration that goes
    round again has advanced [offset], so [fuel] bounds the number of
    iterations; [None] is the loop still running when [fuel] is used up
    (it never is, see [searchLoop_pages]). *)
Fixpoint searchLoop (fuel : nat) (ctx : Context) (baseParams : models.Search)
    (s : Service) (offset limit : Z) (all : list (option T))
    (log : list call) : option run :=
  if offset <? maxResults then
    match fuel with
    | O => None
    | S fuel' =>
        let remaining := maxResults - offset in
        let limit := if remaining <? pageSize then remaining else limit in
        let params :=
          {| SearchRequest_Search := baseParams;
             SearchRequest_Pagination := {| Limit := limit; Offset := offset |} |} in
        let '(r, s') := Search s ctx params in
        let log' := log ++ [(params, r)] in
        match r with
        | Panic msg => Some {| returned := Panic msg; calls := log'; after := s' |}
        | Return (_, Some err) =>
            Some {| returned := Return ([], Some (Errorf_w
                      ("failed to search " +:+ name +:+ " records at offset "
                         +:+ fmt_d offset +:+ ": ") err));
                    calls := log'; after := s' |}
        | Return (None, None) =>
            Some {| returned := Panic nilDereference; calls := log'; after := s' |}
        | Return (Some resp, None) =>
            let n := Z.of_nat (List.length (Records resp)) in
            if n =? 0 then
              Some {| returned := Return (all, None); calls := log'; after := s' |}
            else
              let all' := all ++ Records resp in
              let offset' := offset + n in
              if n <? limit then
                Some {| returned := Return (all', None); calls := log'; after := s' |}
              else searchLoop fuel' ctx baseParams s' offset' limit all' log'
        end
    end
  else Some {| returned := Return (all, None); calls := log; after := s |}.

Definition SearchAll (s : Service) (ctx : Context) (baseParams : models.Search)
    : option run :=
  searchLoop (Z.to_nat maxResults) ctx baseParams s 0 pageSize [] [].

(** The request of a page: the base parameters with [limit] and
    [offset]. *)
Definition pageRequest (baseParams : models.Search) (limit offset : Z)
    : SearchRequest :=
  {| SearchRequest_Search := baseParams;
     SearchRequest_Pagination := {| Limit := limit; Offset := offset |} |}.

(** *** Reading a run

    The observations the statements below make on the calls of a run. *)

Definition requestOffset (c : call) : Z := Offset (SearchRequest_Pagination (fst c)).
Definition requestLimit (c : call) : Z := Limit (SearchRequest_Pagination (fst c)).

(** The records a call brought back (none unless it succeeded). *)
Definition pageOf (c : call) : list (option T) :=
  match snd c with
  | Return (Some resp, None) => Records resp
  | _ => []
  end.

Definition pageCount (c : call) : Z := Z.of_nat (List.length (pageOf c)).

(** A successful page response: a response struct and no error. *)
Definition succeeded (c : call) : Prop :=
  exists resp, snd c = Return (Some resp, None).

(** A page call that returned an error. *)
Definition failedWith (c : call) (err : error) : Prop :=
  exists resp, snd c = Return (resp, Some err).

(** The calls start at offset [o], and each next call starts where the
    previous page ended. *)
Fixpoint chained (o : Z) (tr : list call) : Prop :=
  match tr with
  | [] => True
  | c :: tr' => requestOffset c = o /\ chained (o + pageCount c) tr'
  end.

(** The error [SearchAll] returns for a page error at [offset]. *)
Definition pageError (offset : Z) (err : error) : error :=
  Errorf_w ("failed to search " +:+ name +:+ " records at offset "
              +:+ fmt_d offset +:+ ": ") err.

(** *** The loop as a relation

    [request baseParams o] is the request of the iteration entered at
    offset [o]; [stops o all out] is the result of [SearchAll] when the
    call of that iteration gave [out] and the loop ends there, [None] when
    the loop goes round again. *)
Definition request (baseParams : models.Search) (o : Z) : SearchRequest :=
  {| SearchRequest_Search := baseParams;
     SearchRequest_Pagination :=
       {| Limit := Z.min pageSize (maxResults - o); Offset := o |} |}.

Definition stops (o : Z) (all : list (option T))
    (out : outcome (option (RecordsResponse T) * option error))
    : option (outcome (list (option T) * option error)) :=
  match out with
  | Panic msg => Some (Panic msg)
  | Return (_, Some err) => Some (Return ([], Some (pageError o err)))
  | Return (None, None) => Some (Panic nilDereference)
  | Return (Some resp, None) =>
      let n := Z.of_nat (List.length (Records resp)) in
      if n =? 0 then Some (Return (all, None))
      else if n <? Z.min pageSize (maxResults - o)
           then Some (Return (all ++ Records resp, None))
           else None
  end.

(** [pages ctx baseParams s o all tr res s']: entered at offset [o] with
    accumulator [all] and service [s], the loop makes the calls [tr], ends
    with the result [res] and leaves the service [s']. *)
Inductive pages (ctx : Context) (baseParams : models.Search)
  : Service -> Z -> list (option T) -> list call ->
    outcome (list (option T) * option error) -> Service -> Prop :=
| pages_cap s o all :
    maxResults <= o ->
    pages ctx baseParams s o all [] (Return (all, None)) s
| pages_last s o all out s' res :
    o < maxResults ->
    Search s ctx (request baseParams o) = (out, s') ->
    stops o all out = Some res ->
    pages ctx baseParams s o all [(request baseParams o, out)] res s'
| pages_next s o all resp s' tr res s'' :
    o < maxResults ->
    Search s ctx (request baseParams o) = (Return (Some resp, None), s') ->
    stops o all (Return (Some resp, None)) = None ->
    pages ctx baseParams s' (o + Z.of_nat (List.length (Records resp)))
          (all ++ Records resp) tr res s'' ->
    pages ctx baseParams s o all
          ((request baseParams o, Return (Some resp, None)) :: tr) res s''.

End Service.

(** Two services whose clients answer every request alike, or that both
    have none. *)
Definition alike {C : Type} `{!internal.Client SearchRequest C} (s s' : Service) : Prop :=
  match client s, client s' with
  | None, None => True
  | Some c, Some c' => internal.sameAnswers c c'
  | _, _ => False
  end.

End services.

(** The two instantiations of the common text. *)

Module DomainService.
Section Domain.
Context {C : Type} `{!internal.Client models.SearchRequest C}.
Variable Domain : Type.
Variable DecodeRecord : ReadCloser -> option Domain * option error.
Variable DecodeResponse :
  ReadCloser -> option (models.RecordsResponse Domain) * option error.

Definition GetDetails :=
  services.GetDetails Domain "domain" "/domains" DecodeRecord.
Definition Search :=
  services.Search Domain "domain" "/domains" DecodeResponse.
Definition SearchAll :=
  services.SearchAll Domain "domain" "/domains" DecodeResponse.
End Domain.
End DomainService.

Module HostService.
Section Host.
Context {C : Type} `{!internal.Client models.SearchRequest C}.
Variable Host : Type.
Variable DecodeRecord : ReadCloser -> option Host * option error.
Variable DecodeResponse :
  ReadCloser -> option (models.RecordsResponse Host) * option error.

Definition GetDetails :=
  services.GetDetails Host "host" "/hosts" DecodeRecord.
Definition Search :=
  services.Search Host "host" "/hosts" DecodeResponse.
Definition SearchAll :=
  services.SearchAll Host "host" "/hosts" DecodeResponse.
End Host.
End HostService.

(** The certificate service (services/certificate.go) is a third
    instantiation of the common text. *)

Module CertificateService.
Section Certificate.
Context {C : Type} `{!internal.Client models.SearchRequest C}.
Variable Certificate : Type.
Variable DecodeRecord : ReadCloser -> option Certificate * option error.
Variable DecodeResponse :
  ReadCloser -> option (models.RecordsResponse Certificate) * option error.

Definition GetDetails :=
  services.GetDetails Certificate "certificate" "/certificates" DecodeRecord.
Definition Search :=
  services.Search Certificate "certificate" "/certificates" DecodeResponse.
Definition SearchAll :=
  services.SearchAll Certificate "certificate" "/certificates" DecodeResponse.
End Certificate.
End CertificateService.

(** The CVE service (services/cve.go): [GetDetails] decodes a [models.CVE],
    the search methods work on [models.NistCVEData] records, and [GetCWE]
    posts a [models.CWEParams] body, so the client takes bodies of both
    types. *)

Module CVEService.
Section CVE.
Context {C : Type} `{!internal.Client models.SearchRequest C}.
Variable CVE NistCVEData : Type.
Variable DecodeRecord : ReadCloser -> option CVE * option error.
Variable DecodeResponse :
  ReadCloser -> option (models.RecordsResponse NistCVEData) * option error.

Definition GetDetails :=
  services.GetDetails CVE "CVE" "/cve" DecodeRecord.
Definition Search :=
  services.Search NistCVEData "CVE" "/cve" DecodeResponse.
Definition SearchAll :=
  services.SearchAll NistCVEData "CVE" "/cve" DecodeResponse.

(** [models.CWEParams] is the list of its [IDs]; [CWEResponse] is the
    decoded response struct. *)
Context {CWEClient : internal.Client (list string) C}.
Variable CWEResponse : Type.
Variable DecodeCWE : ReadCloser -> option CWEResponse * option error.

Definition GetCWE (s : services.Service) (ctx : Context) (params : list string)
    : outcome (option CWEResponse * option error) * services.Service :=
  match services.client s with
  | None => (Panic nilDereference, s)
  | Some c =>
      let '((resp, err), c') :=
        internal.MakeRequest (Client := CWEClient) c ctx "POST" "/cwe" (Some params) in
      let s' := {| services.client := Some c' |} in
      match err with
      | Some e => (Return (None, Some (Errorf_w "failed to get CWE data: " e)), s')
      | None =>
          match resp with
          | None => (Panic nilDereference, s')
          | Some r =>
              match internal.DecodeJSON DecodeCWE (Body r) with
              | (_, Some e) =>
                  (Return (None, Some (Errorf_w "failed to decode CWE response: " e)), s')
              | (result, None) => (Return (result, None), s')
              end
          end
      end
  end.
End CVE.
End CVEService.

(** The autonomous-system service (services/autonomous_system.go): the
    search methods are the common text; [GetDetails] decodes a
    [models.Host] and has messages of its own. *)

Module ASService.
Section AS.
Context {C : Type} `{!internal.Client models.SearchRequest C}.
Variable Host AS : Type.
Variable DecodeHost : ReadCloser -> option Host * option error.
Variable DecodeResponse :
  ReadCloser -> option (models.RecordsResponse AS) * option error.

Definition GetDetails (s : services.Service) (ctx : Context) (number : string)
    : outcome (option Host * option error) * services.Service :=
  match services.client s with
  | None => (Panic nilDereference, s)
  | Some c =>
      let '((resp, err), c') :=
        internal.MakeRequest c ctx "GET" ("/autonomous-system/" +:+ number) None in
      let s' := {| services.client := Some c' |} in
      match err with
      | Some e =>
          (Return (None, Some (Errorf_w
             ("failed to get AS details for number " +:+ number +:+ ": ") e)), s')
      | None =>
          match resp with
          | None => (Panic nilDereference, s')
          | Some r =>
              match internal.DecodeJSON DecodeHost (Body r) with
              | (_, Some e) =>
                  (Return (None, Some (Errorf_w
                     "failed to decode AS details response: " e)), s')
              | (host, None) => (Return (host, None), s')
              end
          end
      end
  end.

Definition Search :=
  services.Search AS "AS" "/autonomous-system" DecodeResponse.
Definition SearchAll :=
  services.SearchAll AS "AS" "/autonomous-system" DecodeResponse.
End AS.
End ASService.

(** The account service (services/account.go). *)

Module AccountService.

Definition accountEndpoint : string := "/customers/account".

Section Account.
Context {B C : Type} `{!internal.Client B C}.
Variable Profile : Type.
Variable DecodeProfile : ReadCloser -> option Profile * option error.

Definition GetDetails (s : services.Service) (ctx : Context)
    : outcome (option Profile * option error) * services.Service :=
  match services.client s with
  | None => (Panic nilDereference, s)
  | Some c =>
      let '((resp, err), c') :=
        internal.MakeRequest c ctx "GET" accountEndpoint None in
      let s' := {| services.client := Some c' |} in
      match err with
      | Some e =>
          (Return (None, Some (Errorf_w
             "failed to make request to account endpoint: " e)), s')
      | None =>
          match resp with
          | None => (Panic nilDereference, s')
          | Some r =>
              match internal.DecodeJSON DecodeProfile (Body r) with
              | (_, Some e) =>
                  (Return (None, Some (Errorf_w
                     "failed to decode response body: " e)), s')
              | (profile, None) => (Return (profile, None), s')
              end
          end
      end
  end.
End Account.
End AccountService.

(** ** Package reconago (client.go) *)

Module reconago.

(** [float64] and the comparisons the client makes on it. *)
Definition float64 : Type := spec_float.
Definition float64_of_int (z : Z) : float64 := binary_normalize 53 1024 z 0 false.
Definition float64_zero : float64 := S754_zero false.

(** [rate.Limiter], as far as the client configures and reads it: the rate
    [limit] (events per second) and the bucket size [burst]. *)
Record Limiter : Type := {
  limit : float64;
  burst : Z
}.

Definition NewLimiter (r : float64) (b : Z) : Limiter := {| limit := r; burst := b |}.
Definition SetLimit (lim : Limiter) (newLimit : float64) : Limiter :=
  {| limit := newLimit; burst := burst lim |}.
Definition SetBurst (lim : Limiter) (newBurst : Z) : Limiter :=
  {| limit := limit lim; burst := newBurst |}.

(** The service fields [Domain], [Host], [Certificate] and [CVE] of the
    client are services whose [client] is the client itself; they carry no
    further data and are not repeated in the record. *)
Record Client : Type := {
  baseURL : string;
  token : string;
  httpClient : http.Client;
  rateLimiter : Limiter
}.

Record ClientOptions : Type := {
  Timeout : Duration;
  RequestsPerSec : float64;
  BurstSize : Z
}.

(** [ClientOptions{}]: every field has its zero value. *)
Definition zeroOptions : ClientOptions :=
  {| Timeout := 0; RequestsPerSec := float64_zero; BurstSize := 0 |}.

Definition NewClientWithOptions (token : string) (opts : ClientOptions)
    : option Client * option error :=
  let timeout := if Timeout opts <=? 0 then 60 * Second else Timeout opts in
  let requestsPerSec :=
    if SFleb (RequestsPerSec opts) float64_zero
    then float64_of_int internal.DefaultRateLimit else RequestsPerSec opts in
  let burstSize :=
    if BurstSize opts <=? 0 then internal.DefaultBurst else BurstSize opts in
  if String.eqb token EmptyString then (None, Some (errorString "token is required"))
  else
    let httpClient :=
      {| http.Timeout := timeout;
         ClientTransport := {| MaxIdleConns := 100;
                         MaxIdleConnsPerHost := 10;
                         IdleConnTimeout := 90 * Second;
                         DisableCompression := false |} |} in
    let rateLimiter := NewLimiter requestsPerSec burstSize in
    (Some {| baseURL := internal.BaseURL;
             token := token;
             httpClient := httpClient;
             rateLimiter := rateLimiter |}, None).

Definition NewClient (token : string) : option Client * option error :=
  NewClientWithOptions token zeroOptions.

Section RateLimit.

(** The verb [%f] applied to a [float64]. *)
Variable fmt_f : float64 -> string.

(** [SetRateLimit] returns the error; the client after the call is the
    second component. *)
Definition SetRateLimit (c : Client) (requestsPerSec : float64) (burstSize : Z)
    : option error * Client :=
  if SFleb requestsPerSec float64_zero then
    (Some (errorString ("requests per second must be positive, got: "
                          +:+ fmt_f requestsPerSec)), c)
  else if burstSize <=? 0 then
    (Some (errorString ("burst size must be positive, got: "
                          +:+ fmt_d burstSize)), c)
  else
    let lim := SetLimit (rateLimiter c) requestsPerSec in
    let lim := SetBurst lim burstSize in
    (None, {| baseURL := baseURL c; token := token c;
              httpClient := httpClient c; rateLimiter := lim |}).

End RateLimit.

Definition GetRateLimitStatus (c : Client) : float64 * Z :=
  (limit (rateLimiter c), burst (rateLimiter c)).

Section Requests.

(** The body type, its serialisation, the exchange with the server and the
    request-line checks are those of [internal.MakeAuthenticatedRequest].
    [Wait] is [rateLimiter.Wait(ctx)] of golang.org/x/time/rate: [None] once
    a token is granted, the error when the context ends first.  The tokens
    it takes are no part of [Limiter], so the client is the same after the
    call. *)
Variable B : Type.
Variable Marshal : B -> result string.
Variable Do : http.Client -> Request -> result Response.
Variable checkRequest : Context -> string -> string -> option error.
Variable Wait : Limiter -> Context -> option error.

Definition MakeRequest (c : Client) (ctx : Context) (method endpoint : string)
    (body : option B) : option Response * option error :=
  match Wait (rateLimiter c) ctx with
  | Some err => (None, Some (Errorf_w "rate limit wait cancelled: " err))
  | None =>
      let fullURL := baseURL c +:+ endpoint in
      internal.MakeAuthenticatedRequest B Marshal Do checkRequest
        ctx (Some (httpClient c)) method fullURL (token c) body
  end.

(** [*Client] implements [internal.Client]. *)
Definition asClient : internal.Client B Client :=
  {| internal.MakeRequest c ctx method endpoint body :=
       (MakeRequest c ctx method endpoint body, c) |}.

End Requests.

End reconago.

(** ** Test doubles

    The doubles of the repository's tests, used below to run the code on
    concrete inputs: a client that answers from a table and records its
    calls (the [MockClient] of the service tests), and decoders for bodies
    of a toy wire format. *)

Module testing.
Import models.

(** [MockClient]: [respond] is the table of expected calls and their
    canned answers, [Calls] the calls recorded so far. *)
Record MockClient : Type := {
  respond : string -> string -> option SearchRequest ->
            option Response * option error;
  Calls : list (string * string * option SearchRequest)
}.

#[global] Instance MockClient_Client : internal.Client SearchRequest MockClient := {
  MakeRequest m ctx method path body :=
    (respond m method path body,
     {| respond := respond m; Calls := Calls m ++ [(method, path, body)] |})
}.

Definition mock (respond : string -> string -> option SearchRequest ->
                           option Response * option error) : MockClient :=
  {| respond := respond; Calls := [] |}.

(** A response with the given status and body text, delivered in full. *)
Definition createMockResponseWithString (statusCode : Z) (body : string) : Response :=
  {| StatusCode := statusCode;
     Body := {| data := body; failure := None; closed := false |} |}.

(** Toy wire format: the literal null is the nil pointer; any other body is
    a record (the text itself), resp. a page with one record per byte. *)
Definition decodeRecord (r : ReadCloser) : option string * option error :=
  match failure r with
  | Some e => (None, Some e)
  | None => if String.eqb (data r) "null" then (None, None) else (Some (data r), None)
  end.

Definition decodeResponse (r : ReadCloser)
    : option (RecordsResponse ascii) * option error :=
  match failure r with
  | Some e => (None, Some e)
  | None =>
      if String.eqb (data r) "null" then (None, None)
      else (Some {| RecordsResponse_PaginationResponse :=
                      {| PaginationResponse_TotalItems := {| Value := 0; Relation := "eq" |};
                         PaginationResponse_Pagination := {| Limit := 0; Offset := 0 |} |};
                    Records := List.map Some (list_ascii_of_string (data r)) |}, None)
  end.

(** Decidable readings of a call, for checking a computed run. *)
Definition succeededb {T : Type} (c : services.call T) : bool :=
  match snd c with
  | Return (Some _, None) => true
  | _ => false
  end.

Definition withinLimitb {T : Type} (c : services.call T) : bool :=
  services.pageCount T c <=? services.requestLimit T c.

Definition fullPageb {T : Type} (c : services.call T) : bool :=
  (succeededb c && (services.pageCount T c =? 100))%bool.

(** A body with [n] records. *)
Fixpoint records (n : nat) : string :=
  match n with
  | O => EmptyString
  | S n' => String "r" (records n')
  end.

(** What [decodeResponse] makes of a body with [n] records. *)
Definition pageResponse (n : nat) : RecordsResponse ascii :=
  {| RecordsResponse_PaginationResponse :=
       {| PaginationResponse_TotalItems := {| Value := 0; Relation := "eq" |};
          PaginationResponse_Pagination := {| Limit := 0; Offset := 0 |} |};
     Records := List.map Some (list_ascii_of_string (records n)) |}.

(** A server holding [total] records that serves every page in full. *)
Definition server (total : Z) (method path : string) (body : option SearchRequest)
    : option Response * option error :=
  match body with
  | Some req =>
      let p := SearchRequest_Pagination req in
      let n := Z.max 0 (Z.min (Limit p) (total - Offset p)) in
      (Some (createMockResponseWithString 200 (records (Z.to_nat n))), None)
  | None => (None, Some (errorString "unexpected call"))
  end.

(** The same server, failing every page requested at offset [bad]. *)
Definition failingServer (total bad : Z) (method path : string)
    (body : option SearchRequest) : option Response * option error :=
  match body with
  | Some req =>
      if Offset (SearchRequest_Pagination req) =? bad
      then (None, Some (errorString "second page failed"))
      else server total method path body
  | None => (None, Some (errorString "unexpected call"))
  end.

Definition serviceOver (respond : string -> string -> option SearchRequest ->
                                    option Response * option error)
    : services.Service (C := MockClient) :=
  {| services.client := Some (mock respond) |}.

(** Doubles for the transport: a body that marshals to its own text, a
    request line that is always accepted, and a server that answers every
    request with one given response. *)
Definition marshalText (b : string) : result string := Ok b.
Definition acceptRequest (ctx : Context) (method url : string) : option error := None.
Definition answer (resp : Response) (c : http.Client) (req : Request) : result Response :=
  Ok resp.

Definition plainClient : http.Client :=
  {| http.Timeout := 60 * Second;
     ClientTransport := {| MaxIdleConns := 100; MaxIdleConnsPerHost := 10;
                           IdleConnTimeout := 90 * Second;
                           DisableCompression := false |} |}.

(** A response whose body breaks off after the given bytes. *)
Definition brokenResponse (statusCode : Z) (partial : string) : Response :=
  {| StatusCode := statusCode;
     Body := {| data := partial;
                failure := Some (errorString "unexpected EOF");
                closed := false |} |}.

(** A [%f] for the messages of the doubles. *)
Definition fmt_f (x : reconago.float64) : string := "<float>".

(** A client as [NewClient] builds it, and a search. *)
Definition someClient : reconago.Client :=
  {| reconago.baseURL := internal.BaseURL;
     reconago.token := "secret";
     reconago.httpClient := plainClient;
     reconago.rateLimiter := reconago.NewLimiter (reconago.float64_of_int 10) 2 |}.

Definition someSearch : models.Search := {| Query := "example.com"; Filters := EmptyString |}.

(** A recording client for bodies of any type: it answers from a table and
    keeps the calls made, in order. *)
Record Recorder (B : Type) : Type := {
  answers : string -> string -> option B -> option Response * option error;
  recorded : list (string * string * option B)
}.
Arguments answers {B} _.
Arguments recorded {B} _.

#[global] Instance Recorder_Client (B : Type) : internal.Client B (Recorder B) := {
  MakeRequest m ctx method path body :=
    (answers m method path body,
     {| answers := answers m; recorded := recorded m ++ [(method, path, body)] |})
}.

(** The service over a recording client after one more call. *)
Definition afterCall {B : Type} (m : Recorder B) (method path : string)
    (body : option B) : services.Service :=
  {| services.client :=
       Some {| answers := answers m;
               recorded := recorded m ++ [(method, path, body)] |} |}.

(** A caller that makes a series of [SetRateLimit] calls, whatever each one
    returns. *)
Definition setRateLimits (c : reconago.Client) (settings : list (reconago.float64 * Z))
    : reconago.Client :=
  List.fold_left
    (fun c rb => snd (reconago.SetRateLimit fmt_f c (fst rb) (snd rb))) settings c.

(** A server that ignores the limit and answers every page request with
    10000 records, and one that answers every request with the body null. *)
Definition flood (method path : string) (body : option SearchRequest)
    : option Response * option error :=
  (Some (createMockResponseWithString 200 (records (Z.to_nat 10000))), None).

Definition nullServer (method path : string) (body : option SearchRequest)
    : option Response * option error :=
  (Some (createMockResponseWithString 200 "null"), None).

(** A limiter that always grants a token, and one whose context has ended. *)
Definition grant (lim : reconago.Limiter) (ctx : Context) : option error := None.
Definition refuse (lim : reconago.Limiter) (ctx : Context) : option error :=
  Some (errorString "context canceled").

(** A server that answers every request with the Authorization value it
    was sent. *)
Definition echo (c : http.Client) (req : Request) : result Response :=
  Ok (createMockResponseWithString 200 (Header_Get (ReqHeader req) "Authorization")).

End testing.

(** * Properties *)

Import http models services.

(** A list passes a boolean check on every element. *)
Lemma forallb_Forall {A : Type} (f : A -> bool) (P : A -> Prop) (l : list A) :
  (forall x, f x = true -> P x) -> forallb f l = true -> Forall P l.
Proof.
  intros HP Hall. apply Forall_forall. intros x Hx. apply HP.
  rewrite forallb_forall in Hall. by apply Hall, list_elem_of_In.
Qed.

(** ** The authenticated transport *)

Section TransportFacts.
Variable B : Type.
Variable Marshal : B -> result string.
Variable Do : http.Client -> Request -> result Response.
Variable checkRequest : Context -> string -> string -> option error.

Abbreviation prepareRequest := (internal.prepareRequest B Marshal checkRequest).
Abbreviation MakeAuthenticatedRequest :=
  (internal.MakeAuthenticatedRequest B Marshal Do checkRequest).

(** The header of a prepared request. *)
Lemma prepareRequest_header ctx method url token body req :
  prepareRequest ctx method url token body = Ok req ->
  ReqHeader req =
    <["Accept" := ["application/json"]]>
      (<["Content-Type" := ["application/json"]]>
         (<["Authorization" := ["Bearer " +:+ token]]> ∅)).
Proof.
  unfold internal.prepareRequest, internal.NewRequestWithContext.
  destruct body as [b|]; [destruct (Marshal b)|];
    destruct (checkRequest ctx method url); try done;
    by intros [= <-].
Qed.

(** C6, as amended.  When the server answers the prepared request with a
    status of 400 or more, no response is returned and the error is
    [API error <status>: <body>] with the whole body text, provided the body
    could be read to its end; when reading the body fails, the error is
    [API error <status>: failed to read response body] and carries no body
    text.  With a status below 400 the server's response is returned as it
    came, its body neither read nor closed, and there is no error. *)
Theorem MakeAuthenticatedRequest_classifies ctx c method url token body req resp :
  prepareRequest ctx method url token body = Ok req ->
  Do c req = Ok resp ->
  (400 <= StatusCode resp -> failure (Body resp) = None ->
     MakeAuthenticatedRequest ctx (Some c) method url token body =
       (None, Some (errorString
          ("API error " +:+ fmt_d (StatusCode resp) +:+ ": " +:+ data (Body resp))))) /\
  (400 <= StatusCode resp -> failure (Body resp) <> None ->
     MakeAuthenticatedRequest ctx (Some c) method url token body =
       (None, Some (errorString
          ("API error " +:+ fmt_d (StatusCode resp)
             +:+ ": failed to read response body")))) /\
  (StatusCode resp < 400 ->
     MakeAuthenticatedRequest ctx (Some c) method url token body = (Some resp, None)).
Proof.
  intros Hreq Hdo. unfold internal.MakeAuthenticatedRequest. rewrite Hreq, Hdo.
  unfold ReadAll. split_and!.
  - intros Hge Hok. destruct (Z.leb_spec 400 (StatusCode resp)); [|lia].
    by rewrite Hok.
  - intros Hge Hbad. destruct (Z.leb_spec 400 (StatusCode resp)); [|lia].
    by destruct (failure (Body resp)).
  - intros Hlt. by destruct (Z.leb_spec 400 (StatusCode resp)); [lia|].
Qed.

(** The request of a call that gets as far as the exchange with the
    server: one request, built before the server is asked, and the outcome
    of the call is the classification of the answer to it. *)
Lemma MakeAuthenticatedRequest_request ctx method url token body :
  match body with Some b => exists js, Marshal b = Ok js | None => True end ->
  checkRequest ctx method url = None ->
  exists req,
    prepareRequest ctx method url token body = Ok req /\
    forall Do' c,
      internal.MakeAuthenticatedRequest B Marshal Do' checkRequest
        ctx (Some c) method url token body = internal.classify (Do' c req).
Proof.
  intros Hbody Hcheck.
  assert (exists req, prepareRequest ctx method url token body = Ok req)
    as [req Hreq].
  { unfold internal.prepareRequest, internal.NewRequestWithContext.
    rewrite Hcheck. destruct body as [b|]; [|by eexists].
    destruct Hbody as [js ->]. by eexists. }
  exists req. split; [done|]. intros Do' c.
  unfold internal.MakeAuthenticatedRequest, internal.classify. by rewrite Hreq.
Qed.

(** C7.  Whenever the body can be serialised and the request line is
    accepted, [MakeAuthenticatedRequest] with a client hands one request to
    [client.Do], the same whatever the server, and returns the
    classification of the answer to it.  This request carries exactly three
    headers: Authorization with the value ["Bearer " ++ token], Content-Type
    and Accept, both application/json.  With the empty token the value set
    is ["Bearer "], which the transport writes on the wire as [Bearer], the
    trailing space trimmed. *)
Theorem MakeAuthenticatedRequest_headers ctx method url token body :
  match body with Some b => exists js, Marshal b = Ok js | None => True end ->
  checkRequest ctx method url = None ->
  exists req,
    (forall Do' c,
       internal.MakeAuthenticatedRequest B Marshal Do' checkRequest
         ctx (Some c) method url token body = internal.classify (Do' c req)) /\
    ReqHeader req =
      <["Accept" := ["application/json"]]>
        (<["Content-Type" := ["application/json"]]>
           (<["Authorization" := ["Bearer " +:+ token]]> ∅)) /\
    dom (ReqHeader req) = {[ "Authorization"; "Content-Type"; "Accept" ]} /\
    size (ReqHeader req) = 3%nat /\
    Header_Get (ReqHeader req) "Authorization" = "Bearer " +:+ token /\
    Header_Get (ReqHeader req) "Content-Type" = "application/json" /\
    Header_Get (ReqHeader req) "Accept" = "application/json" /\
    (token = EmptyString ->
       Header_Get (ReqHeader req) "Authorization" = "Bearer " /\
       wireValue (Header_Get (ReqHeader req) "Authorization") = Some "Bearer").
Proof.
  intros Hbody Hcheck.
  destruct (MakeAuthenticatedRequest_request _ _ _ token _ Hbody Hcheck)
    as (req & Hreq & Hcall).
  exists req. split; [exact Hcall|].
  pose proof (prepareRequest_header _ _ _ _ _ _ Hreq) as Hh.
  unfold Header_Get. rewrite Hh. split_and!.
  - done.
  - rewrite !dom_insert_L, dom_empty_L. set_solver.
  - rewrite !map_size_insert_None, map_size_empty; [done|done|..];
      by simplify_map_eq.
  - by simplify_map_eq.
  - by simplify_map_eq.
  - by simplify_map_eq.
  - intros ->. by simplify_map_eq.
Qed.

End TransportFacts.

(** C6, as stated, fails: a response with status 500 whose body breaks off
    while it is read yields the error
    [API error 500: failed to read response body], which holds nothing of
    the body text. *)
Lemma MakeAuthenticatedRequest_body_counterexample :
  ~ (forall (B : Type) (Marshal : B -> result string)
            (Do : http.Client -> Request -> result Response)
            (checkRequest : Context -> string -> string -> option error)
            ctx c method url token body req resp,
       internal.prepareRequest B Marshal checkRequest ctx method url token body = Ok req ->
       Do c req = Ok resp ->
       400 <= StatusCode resp ->
       exists err,
         internal.MakeAuthenticatedRequest B Marshal Do checkRequest
           ctx (Some c) method url token body = (None, Some err) /\
         Contains (Error err) (fmt_d (StatusCode resp)) = true /\
         Contains (Error err) (data (Body resp)) = true).
Proof.
  intros Hclaim.
  destruct (Hclaim string testing.marshalText
              (testing.answer (testing.brokenResponse 500 "quota exceeded"))
              testing.acceptRequest Background testing.plainClient
              "GET" "https://api.recona.io/domains/example.com" "secret" None
              _ _ eq_refl eq_refl ltac:(done))
    as (err & Herr & _ & Hbody).
  injection Herr as <-. vm_compute in Hbody. discriminate.
Qed.

(** A 400 answer with the body [validation failed], read in full. *)
Lemma MakeAuthenticatedRequest_classifies_witness :
  internal.MakeAuthenticatedRequest string testing.marshalText
    (testing.answer (testing.createMockResponseWithString 400 "validation failed"))
    testing.acceptRequest Background (Some testing.plainClient)
    "POST" "https://api.recona.io/domains/search" "secret" (Some "{}")
  = (None, Some (errorString "API error 400: validation failed")).
Proof.
  eapply (proj1 (MakeAuthenticatedRequest_classifies string testing.marshalText
            (testing.answer (testing.createMockResponseWithString 400 "validation failed"))
            testing.acceptRequest Background testing.plainClient
            "POST" "https://api.recona.io/domains/search" "secret" (Some "{}")
            _ _ eq_refl eq_refl)).
  - done.
  - reflexivity.
Defined.

(** A GET with the empty token, to a server that answers with the
    Authorization value it was sent. *)
Lemma MakeAuthenticatedRequest_headers_witness :
  internal.MakeAuthenticatedRequest string testing.marshalText testing.echo
    testing.acceptRequest Background (Some testing.plainClient)
    "GET" "https://api.recona.io/domains/example.com" EmptyString None
  = (Some (testing.createMockResponseWithString 200 "Bearer "), None) /\
  wireValue "Bearer " = Some "Bearer".
Proof.
  destruct (MakeAuthenticatedRequest_headers string testing.marshalText
              testing.acceptRequest Background
              "GET" "https://api.recona.io/domains/example.com" EmptyString None
              I eq_refl)
    as (req & Hcall & _ & _ & _ & _ & _ & _ & Hempty).
  destruct (Hempty eq_refl) as [Hauth Hwire].
  rewrite Hcall. unfold testing.echo. rewrite Hauth in Hwire |- *.
  split; [reflexivity|exact Hwire].
Defined.

(** ** The client configuration *)

Import reconago.

(** A positive rate is not at most zero (and NaN is neither). *)
Lemma float64_positive_not_le (x : float64) :
  SFltb float64_zero x = true -> SFleb x float64_zero = false.
Proof. by destruct x as [[]|[]| |[] m e]. Qed.

(** The default rate: 10 = 5629499534213120 * 2^-49. *)
Lemma float64_ten : float64_of_int 10 = S754_finite false 5629499534213120 (-49).
Proof. reflexivity. Qed.

Section RateLimitFacts.
Variable fmt_f : float64 -> string.

(** C5.  With a rate that is at most zero or a burst size that is at most
    zero, [SetRateLimit] returns an error and the client is exactly as
    before: neither the rate nor the burst size has changed.  With a
    positive rate and a positive burst size it returns no error, the
    limiter holds both new values, and the rest of the client is
    unchanged. *)
Theorem SetRateLimit_validates (c : Client) (requestsPerSec : float64) (burstSize : Z) :
  (SFleb requestsPerSec float64_zero = true \/ burstSize <= 0 ->
     exists err, SetRateLimit fmt_f c requestsPerSec burstSize = (Some err, c)) /\
  (SFltb float64_zero requestsPerSec = true -> 0 < burstSize ->
     exists c', SetRateLimit fmt_f c requestsPerSec burstSize = (None, c') /\
                GetRateLimitStatus c' = (requestsPerSec, burstSize) /\
                baseURL c' = baseURL c /\ token c' = token c /\
                httpClient c' = httpClient c).
Proof.
  unfold SetRateLimit. split.
  - intros [Hrate|Hburst].
    + rewrite Hrate. by eexists.
    + destruct (SFleb requestsPerSec float64_zero); [by eexists|].
      destruct (Z.leb_spec burstSize 0); [by eexists|lia].
  - intros Hrate Hburst. rewrite (float64_positive_not_le _ Hrate).
    destruct (Z.leb_spec burstSize 0); [lia|]. by eexists.
Qed.

End RateLimitFacts.

(** A negative rate, a zero burst size, and an accepted pair. *)
Lemma SetRateLimit_validates_witness :
  (exists err, SetRateLimit testing.fmt_f testing.someClient (float64_of_int (-1)) 5
               = (Some err, testing.someClient)) /\
  (exists err, SetRateLimit testing.fmt_f testing.someClient (float64_of_int 5) 0
               = (Some err, testing.someClient)) /\
  (exists c', SetRateLimit testing.fmt_f testing.someClient (float64_of_int 5) 3 = (None, c') /\
              GetRateLimitStatus c' = (float64_of_int 5, 3)).
Proof.
  split_and!.
  - apply (proj1 (SetRateLimit_validates testing.fmt_f testing.someClient
                    (float64_of_int (-1)) 5)).
    left. reflexivity.
  - apply (proj1 (SetRateLimit_validates testing.fmt_f testing.someClient
                    (float64_of_int 5) 0)).
    right. lia.
  - destruct (proj2 (SetRateLimit_validates testing.fmt_f testing.someClient
                       (float64_of_int 5) 3) eq_refl ltac:(lia))
      as (c' & Hset & Hstatus & _).
    by exists c'.
Defined.

(** C8.  A client built by [NewClient] has a request timeout of 60 seconds,
    a rate limit of 10 requests per second and a burst size of 2. *)
Theorem NewClient_defaults (tok : string) (c : Client) (err : option error) :
  NewClient tok = (Some c, err) ->
  http.Timeout (httpClient c) = 60 * Second /\
  limit (rateLimiter c) = float64_of_int 10 /\
  burst (rateLimiter c) = 2 /\
  GetRateLimitStatus c = (S754_finite false 5629499534213120 (-49), 2).
Proof.
  unfold NewClient, NewClientWithOptions.
  destruct (String.eqb tok EmptyString); [done|]. by intros [= <- <-].
Qed.

(** The client built for the token [secret]. *)
Lemma NewClient_defaults_witness :
  NewClient "secret" = (Some testing.someClient, None) /\
  http.Timeout (httpClient testing.someClient) = 60000000000 /\
  GetRateLimitStatus testing.someClient = (float64_of_int 10, 2).
Proof.
  split; [reflexivity|].
  destruct (NewClient_defaults "secret" testing.someClient None eq_refl)
    as (Htimeout & _ & _ & Hstatus).
  split; [exact Htimeout|exact Hstatus].
Defined.

(** C9.  [NewClientWithOptions] returns an error exactly when the token is
    empty.  With any other token it returns a client and no error, whatever
    the options: a timeout, rate or burst size that is at most zero is
    replaced by 60 seconds, 10 and 2, any other value is kept. *)
Theorem NewClientWithOptions_only_rejects_empty_token (tok : string) (opts : ClientOptions) :
  (snd (NewClientWithOptions tok opts) <> None <-> tok = EmptyString) /\
  (tok = EmptyString ->
     NewClientWithOptions tok opts = (None, Some (errorString "token is required"))) /\
  (tok <> EmptyString ->
     exists c, NewClientWithOptions tok opts = (Some c, None) /\
       token c = tok /\
       (Timeout opts <= 0 -> http.Timeout (httpClient c) = 60 * Second) /\
       (0 < Timeout opts -> http.Timeout (httpClient c) = Timeout opts) /\
       (SFleb (RequestsPerSec opts) float64_zero = true ->
          limit (rateLimiter c) = float64_of_int 10) /\
       (SFleb (RequestsPerSec opts) float64_zero = false ->
          limit (rateLimiter c) = RequestsPerSec opts) /\
       (BurstSize opts <= 0 -> burst (rateLimiter c) = 2) /\
       (0 < BurstSize opts -> burst (rateLimiter c) = BurstSize opts)).
Proof.
  unfold NewClientWithOptions.
  destruct (String.eqb_spec tok EmptyString) as [->|Hne]; cbn.
  - split_and!; [done|done|done].
  - split_and!; [split; [by intros []|done]|done|]. intros _.
    eexists. split; [reflexivity|]. cbn. split_and!; try done.
    + intros Hle. by destruct (Z.leb_spec (Timeout opts) 0); [|lia].
    + intros Hlt. by destruct (Z.leb_spec (Timeout opts) 0); [lia|].
    + by intros ->.
    + by intros ->.
    + intros Hle. by destruct (Z.leb_spec (BurstSize opts) 0); [|lia].
    + intros Hlt. by destruct (Z.leb_spec (BurstSize opts) 0); [lia|].
Qed.

(** Options that are all out of range, with and without a token. *)
Lemma NewClientWithOptions_only_rejects_empty_token_witness :
  NewClientWithOptions EmptyString {| Timeout := -5; RequestsPerSec := float64_of_int (-1);
                             BurstSize := 0 |}
    = (None, Some (errorString "token is required")) /\
  exists c, NewClientWithOptions "secret"
              {| Timeout := -5; RequestsPerSec := float64_of_int (-1); BurstSize := 0 |}
            = (Some c, None) /\
            http.Timeout (httpClient c) = 60 * Second /\
            limit (rateLimiter c) = float64_of_int 10 /\
            burst (rateLimiter c) = 2.
Proof.
  split.
  - apply (proj1 (proj2 (NewClientWithOptions_only_rejects_empty_token EmptyString _))).
    reflexivity.
  - destruct (proj2 (proj2 (NewClientWithOptions_only_rejects_empty_token "secret"
                {| Timeout := -5; RequestsPerSec := float64_of_int (-1); BurstSize := 0 |}))
                ltac:(done))
      as (c & Hc & _ & Ht & _ & Hr & _ & Hb & _).
    exists c. split; [exact Hc|].
    split; [apply Ht; cbn; lia|]. split; [apply Hr; reflexivity|apply Hb; cbn; lia].
Defined.

(** ** Record details *)

Section DetailsFacts.
Context {C : Type} `{!internal.Client SearchRequest C}.
Variable T : Type.
Variable name endpoint : string.
Variable DecodeRecord : ReadCloser -> option T * option error.

(** encoding/json: the literal null, read through to the end of the stream,
    sets the pointer to nil and is no error. *)
Hypothesis DecodeRecord_null :
  forall r, data r = "null" -> failure r = None -> DecodeRecord r = (None, None).


End DetailsFacts.


(** ** The paginated search *)

Section SearchAllFacts.
Context {C : Type} `{!internal.Client SearchRequest C}.
Variable T : Type.
Variable name endpoint : string.
Variable DecodeResponse : ReadCloser -> option (RecordsResponse T) * option error.
Variable ctx : Context.
Variable baseParams : models.Search.

Abbreviation Search := (services.Search T name endpoint DecodeResponse).
Abbreviation searchLoop := (services.searchLoop T name endpoint DecodeResponse).
Abbreviation SearchAll := (services.SearchAll T name endpoint DecodeResponse).
Abbreviation pages := (services.pages T name endpoint DecodeResponse ctx baseParams).
Abbreviation stops := (services.stops T name).

Lemma searchLoop_pages (fuel : nat) :
  forall (s : Service) (o limit : Z) (all : list (option T)) (log : list (call T)),
    (pageSize <= maxResults - o -> limit = pageSize) ->
    (Z.to_nat (maxResults - o) <= fuel)%nat ->
    exists r tr,
      searchLoop fuel ctx baseParams s o limit all log = Some r /\
      calls T r = log ++ tr /\
      pages s o all tr (returned T r) (after T r).
Proof.
  induction fuel as [|fuel IH]; intros s o limit all log Hlim Hfuel.
  - cbn [services.searchLoop]. destruct (Z.ltb_spec o maxResults) as [Hlt|Hge].
    + exfalso. unfold maxResults in *. lia.
    + eexists _, []. split; [reflexivity|]. cbn. split; [by rewrite app_nil_r|].
      by constructor.
  - cbn [services.searchLoop]. destruct (Z.ltb_spec o maxResults) as [Hlt|Hge].
    2:{ eexists _, []. split; [reflexivity|]. cbn. split; [by rewrite app_nil_r|].
        by constructor. }
    assert (Hreq : (if maxResults - o <? pageSize then maxResults - o else limit)
                   = Z.min pageSize (maxResults - o)).
    { destruct (Z.ltb_spec (maxResults - o) pageSize); [lia|]. rewrite Hlim; lia. }
    rewrite Hreq. fold (request baseParams o).
    destruct (Search s ctx (request baseParams o)) as [out s'] eqn:Hcall.
    destruct out as [[[resp|] [err|]]|msg].
    all: try (eexists _, [_]; split; [reflexivity|]; cbn; split; [reflexivity|];
              eapply pages_last; [exact Hlt|exact Hcall|reflexivity]).
    destruct (Z.eqb_spec (Z.of_nat (List.length (Records resp))) 0) as [Hz|Hnz].
    { eexists _, [_]; split; [reflexivity|]; cbn; split; [reflexivity|].
      eapply pages_last; [exact Hlt|exact Hcall|]. cbn. by rewrite Hz. }
    destruct (Z.ltb_spec (Z.of_nat (List.length (Records resp)))
                         (Z.min pageSize (maxResults - o))) as [Hshort|Hfull].
    { eexists _, [_]; split; [reflexivity|]; cbn; split; [reflexivity|].
      eapply pages_last; [exact Hlt|exact Hcall|]. cbn.
      destruct (Z.eqb_spec (Z.of_nat (List.length (Records resp))) 0); [lia|].
      destruct (Z.ltb_spec (Z.of_nat (List.length (Records resp)))
                           (Z.min pageSize (maxResults - o))); [done|lia]. }
    edestruct (IH s' (o + Z.of_nat (List.length (Records resp)))
                  (Z.min pageSize (maxResults - o)) (all ++ Records resp)
                  (log ++ [(request baseParams o, Return (Some resp, None))]))
      as (r & tr & Hr & Hcalls & Hpages).
    { intros. unfold pageSize, maxResults in *. lia. }
    { unfold pageSize, maxResults in *. lia. }
    exists r, ((request baseParams o, Return (Some resp, None)) :: tr).
    split; [exact Hr|]. split; [by rewrite Hcalls, <- app_assoc|].
    eapply pages_next; [exact Hlt|exact Hcall| |exact Hpages].
    cbn. destruct (Z.eqb_spec (Z.of_nat (List.length (Records resp))) 0); [lia|].
    destruct (Z.ltb_spec (Z.of_nat (List.length (Records resp)))
                         (Z.min pageSize (maxResults - o))); [lia|done].
Qed.

Lemma SearchAll_pages (s : Service) :
  exists r, SearchAll s ctx baseParams = Some r /\
            pages s 0 [] (calls T r) (returned T r) (after T r).
Proof.
  destruct (searchLoop_pages (Z.to_nat maxResults) s 0 pageSize [] [])
    as (r & tr & Hr & Hcalls & Hpages); [done|done|].
  exists r. split; [exact Hr|]. by rewrite Hcalls.
Qed.

Abbreviation requestOffset := (services.requestOffset T).
Abbreviation requestLimit := (services.requestLimit T).
Abbreviation pageOf := (services.pageOf T).
Abbreviation pageCount := (services.pageCount T).
Abbreviation succeeded := (services.succeeded T).
Abbreviation failedWith := (services.failedWith T).
Abbreviation chained := (services.chained T).
Abbreviation pageError := (services.pageError name).
Abbreviation pageRequest := (services.pageRequest baseParams).

(** What [stops] says about a successful call. *)
Lemma stops_success o all resp res :
  o < maxResults ->
  stops o all (Return (Some resp, None)) = Some res ->
  Z.of_nat (List.length (Records resp)) < Z.min pageSize (maxResults - o) /\
  res = Return (all ++ Records resp, None).
Proof.
  intros Hlt. cbn.
  destruct (Z.eqb_spec (Z.of_nat (List.length (Records resp))) 0) as [Hz|Hnz].
  - intros [= <-]. split; [unfold pageSize, maxResults in *; lia|].
    destruct (Records resp); [|done]. by rewrite app_nil_r.
  - destruct (Z.ltb_spec (Z.of_nat (List.length (Records resp)))
                         (Z.min pageSize (maxResults - o))); [|done].
    by intros [= <-].
Qed.

Lemma stops_full o all resp :
  o < maxResults ->
  stops o all (Return (Some resp, None)) = None ->
  Z.min pageSize (maxResults - o) <= Z.of_nat (List.length (Records resp)) /\
  0 < Z.of_nat (List.length (Records resp)).
Proof.
  intros Hlt. cbn.
  destruct (Z.eqb_spec (Z.of_nat (List.length (Records resp))) 0) as [Hz|Hnz]; [done|].
  destruct (Z.ltb_spec (Z.of_nat (List.length (Records resp)))
                       (Z.min pageSize (maxResults - o))); [done|].
  intros _. lia.
Qed.

Lemma stops_failed o all resp err res :
  stops o all (Return (resp, Some err)) = Some res ->
  res = Return ([], Some (pageError o err)).
Proof. destruct resp; cbn; by intros [= <-]. Qed.

(** Every request is the one computed from its offset, below the cap. *)
Lemma pages_requests s o all tr res s' :
  pages s o all tr res s' ->
  Forall (fun c => fst c = request baseParams (requestOffset c) /\
                   requestOffset c < maxResults /\ o <= requestOffset c) tr.
Proof.
  induction 1 as [| |s o all resp s' tr res s'' Hlt Hcall Hstop Hpages IH].
  - constructor.
  - constructor; [|constructor]. cbn. split; [done|lia].
  - constructor; [cbn; split; [done|lia]|].
    apply stops_full in Hstop as [_ Hpos]; [|done].
    eapply Forall_impl; [exact IH|]. cbn. intros c (? & ? & ?). repeat split; [done..|lia].
Qed.

Lemma pages_chained s o all tr res s' :
  pages s o all tr res s' -> chained o tr.
Proof.
  induction 1; cbn; [done|done|]. split; [done|]. done.
Qed.

Lemma pages_increasing s o all tr res s' :
  pages s o all tr res s' -> StronglySorted Z.lt (List.map requestOffset tr).
Proof.
  induction 1 as [| |s o all resp s' tr res s'' Hlt Hcall Hstop Hpages IH]; cbn.
  - constructor.
  - constructor; constructor.
  - constructor; [exact IH|].
    apply stops_full in Hstop as [_ Hpos]; [|done].
    apply pages_requests in Hpages.
    rewrite Forall_map. eapply Forall_impl; [exact Hpages|].
    intros c (_ & _ & Hc). unfold services.requestOffset in *. cbn in *. lia.
Qed.

(** If every call succeeded, the result is the accumulator followed by the
    pages in call order. *)
Lemma pages_all_succeeded s o all tr res s' :
  pages s o all tr res s' ->
  Forall succeeded tr ->
  res = Return (all ++ List.concat (List.map pageOf tr), None).
Proof.
  induction 1 as [|s o all out s' res Hlt Hcall Hstop
                  |s o all resp s' tr res s'' Hlt Hcall Hstop Hpages IH]; intros Hok.
  - cbn. by rewrite app_nil_r.
  - apply Forall_cons in Hok as [[resp Hresp] _]. cbn in Hresp. subst out.
    apply stops_success in Hstop as [_ ->]; [|done].
    cbn. unfold services.pageOf. cbn. by rewrite app_nil_r.
  - apply Forall_cons in Hok as [_ Hok]. rewrite (IH Hok).
    cbn. unfold services.pageOf at 2. cbn. by rewrite app_assoc.
Qed.

(** A short page is the last call, and the result is everything fetched
    up to and including it. *)
Lemma pages_short_page s o all tr res s' :
  pages s o all tr res s' ->
  forall pre c post resp,
    tr = pre ++ c :: post ->
    snd c = Return (Some resp, None) ->
    Z.of_nat (List.length (Records resp)) < requestLimit c ->
    post = [] /\ res = Return (all ++ List.concat (List.map pageOf (pre ++ [c])), None).
Proof.
  induction 1 as [|s o all out s' res Hlt Hcall Hstop
                  |s o all resp0 s' tr res s'' Hlt Hcall Hstop Hpages IH];
    intros pre c post resp Htr Hc Hshort.
  - by destruct pre.
  - destruct pre as [|c0 pre]; [|by destruct pre].
    injection Htr as <- <-. cbn in Hc. subst out. split; [done|].
    apply stops_success in Hstop as [_ ->]; [|done].
    cbn. unfold services.pageOf. cbn. by rewrite app_nil_r.
  - destruct pre as [|c0 pre].
    + injection Htr as <- <-. cbn in Hc. injection Hc as <-.
      apply stops_full in Hstop as [Hfull _]; [|done].
      unfold services.requestLimit in Hshort. cbn in Hshort. lia.
    + injection Htr as <- ->.
      destruct (IH pre c post resp eq_refl Hc Hshort) as [-> ->].
      split; [done|]. cbn. unfold services.pageOf at 2. cbn. by rewrite app_assoc.
Qed.

(** A failed page is the last call; the result has no record and the
    error names the offset of that call. *)
Lemma pages_failed_page s o all tr res s' :
  pages s o all tr res s' ->
  forall pre c post err,
    tr = pre ++ c :: post ->
    failedWith c err ->
    post = [] /\ res = Return ([], Some (pageError (requestOffset c) err)).
Proof.
  induction 1 as [|s o all out s' res Hlt Hcall Hstop
                  |s o all resp0 s' tr res s'' Hlt Hcall Hstop Hpages IH];
    intros pre c post err Htr [resp Hc].
  - by destruct pre.
  - destruct pre as [|c0 pre]; [|by destruct pre].
    injection Htr as <- <-. cbn in Hc. subst out. split; [done|].
    by apply stops_failed in Hstop.
  - destruct pre as [|c0 pre].
    + injection Htr as <- <-. done.
    + injection Htr as <- ->. eapply IH; [done|]. by exists resp.
Qed.

(** With pages no longer than requested, the result stays within what was
    left below the cap. *)
Lemma pages_bounded s o all tr res s' :
  pages s o all tr res s' ->
  Forall (fun c => pageCount c <= requestLimit c) tr ->
  forall l e, res = Return (l, e) ->
    Z.of_nat (List.length l) <= Z.of_nat (List.length all) + Z.max 0 (maxResults - o).
Proof.
  induction 1 as [|s o all out s' res Hlt Hcall Hstop
                  |s o all resp s' tr res s'' Hlt Hcall Hstop Hpages IH];
    intros Hle l e Hres.
  - injection Hres as <- <-. lia.
  - destruct out as [[[resp|] [err|]]|msg]; cbn in Hstop.
    + injection Hstop as <-. injection Hres as <- <-. cbn. lia.
    + apply stops_success in Hstop as [Hshort ->]; [|done].
      injection Hres as <- <-. rewrite length_app. lia.
    + injection Hstop as <-. injection Hres as <- <-. cbn. lia.
    + by injection Hstop as <-.
    + by injection Hstop as <-.
  - apply Forall_cons in Hle as [Hle0 Hle].
    unfold services.pageCount, services.pageOf, services.requestLimit in Hle0.
    cbn in Hle0.
    specialize (IH Hle l e Hres). rewrite length_app in IH. lia.
Qed.

(** With nothing but full pages of [pageSize] records, the loop runs to
    the cap. *)
Lemma pages_full_pages s o all tr res s' :
  pages s o all tr res s' ->
  Forall (fun c => succeeded c /\ pageCount c = pageSize) tr ->
  o <= maxResults -> (maxResults - o) mod pageSize = 0 ->
  exists l, res = Return (l, None) /\
    Z.of_nat (List.length l) = Z.of_nat (List.length all) + (maxResults - o) /\
    Z.of_nat (List.length tr) * pageSize = maxResults - o.
Proof.
  induction 1 as [|s o all out s' res Hlt Hcall Hstop
                  |s o all resp s' tr res s'' Hlt Hcall Hstop Hpages IH];
    intros Hfull Hle Hmod.
  - exists all. split; [done|]. cbn. lia.
  - exfalso. apply Forall_cons in Hfull as [[[resp Hresp] Hn] _].
    cbn in Hresp. subst out.
    unfold services.pageCount, services.pageOf in Hn. cbn in Hn.
    apply stops_success in Hstop as [Hshort _]; [|done].
    assert (pageSize <= maxResults - o); [|lia].
    apply Z.mod_divide in Hmod as [k Hk]; [|done]. unfold pageSize in *. nia.
  - apply Forall_cons in Hfull as [[_ Hn] Hfull].
    unfold services.pageCount, services.pageOf in Hn. cbn in Hn.
    assert (pageSize <= maxResults - o).
    { apply Z.mod_divide in Hmod as [k Hk]; [|done]. unfold pageSize in *. nia. }
    destruct IH as (l & -> & Hlen & Hcalls); [done|lia| |].
    { rewrite Hn. replace (maxResults - (o + pageSize))
        with (maxResults - o + (-1) * pageSize) by lia.
      by rewrite Z.mod_add. }
    exists l. split; [done|]. rewrite length_app in Hlen. cbn [List.length]. lia.
Qed.


(** Unrolling the relation along known answers of [Search]. *)
Lemma pages_unroll_next s o all tr res s' resp s1 :
  pages s o all tr res s' ->
  o < maxResults ->
  Search s ctx (request baseParams o) = (Return (Some resp, None), s1) ->
  Z.min pageSize (maxResults - o) <= Z.of_nat (List.length (Records resp)) ->
  exists tr',
    tr = (request baseParams o, Return (Some resp, None)) :: tr' /\
    pages s1 (o + Z.of_nat (List.length (Records resp))) (all ++ Records resp) tr' res s'.
Proof.
  intros Hpages Hlt Hcall Hfull.
  inversion Hpages as [|? ? ? out ? ? _ Hcall' Hstop|? ? ? resp' ? tr' ? ? _ Hcall' Hstop Hrest];
    subst.
  - lia.
  - rewrite Hcall in Hcall'. injection Hcall' as <- <-.
    apply stops_success in Hstop as [Hshort _]; [lia|done].
  - rewrite Hcall in Hcall'. injection Hcall' as <- <-. by exists tr'.
Qed.

Lemma pages_unroll_last s o all tr res s' out s1 res1 :
  pages s o all tr res s' ->
  o < maxResults ->
  Search s ctx (request baseParams o) = (out, s1) ->
  stops o all out = Some res1 ->
  tr = [(request baseParams o, out)] /\ res = res1 /\ s' = s1.
Proof.
  intros Hpages Hlt Hcall Hstop1.
  inversion Hpages as [|? ? ? out' ? ? _ Hcall' Hstop|? ? ? resp' ? tr' ? ? _ Hcall' Hstop Hrest];
    subst.
  - lia.
  - rewrite Hcall in Hcall'. injection Hcall' as <- <-.
    rewrite Hstop1 in Hstop. by injection Hstop as <-.
  - rewrite Hcall in Hcall'. injection Hcall' as -> <-. congruence.
Qed.






End SearchAllFacts.



(** The boolean readings of a call agree with the propositions. *)
Lemma succeededb_spec {T : Type} (c : call T) :
  testing.succeededb c = true -> succeeded T c.
Proof.
  unfold testing.succeededb, succeeded.
  destruct (snd c) as [[[resp|] [e|]]|]; try done. by exists resp.
Qed.

Lemma fullPageb_spec {T : Type} (c : call T) :
  testing.fullPageb c = true -> succeeded T c /\ pageCount T c = 100.
Proof.
  unfold testing.fullPageb. intros [Hs Hn]%andb_prop.
  split; [by apply succeededb_spec|lia].
Qed.

Lemma withinLimitb_spec {T : Type} (c : call T) :
  testing.withinLimitb c = true -> pageCount T c <= requestLimit T c.
Proof. unfold testing.withinLimitb. lia. Qed.





(** * Further properties *)

(** ** The transport, beyond the classification of the response *)

Section TransportMore.
Variable B : Type.
Variable Marshal : B -> result string.
Variable Do : http.Client -> Request -> result Response.
Variable checkRequest : Context -> string -> string -> option error.

Abbreviation prepareRequest := (internal.prepareRequest B Marshal checkRequest).
Abbreviation MakeAuthenticatedRequest :=
  (internal.MakeAuthenticatedRequest B Marshal Do checkRequest).

(** X1.  Whatever the arguments and whatever the server does,
    [MakeAuthenticatedRequest] returns exactly one of a response and an
    error: never both, never neither. *)
Theorem MakeAuthenticatedRequest_one_result ctx client method url token body :
  match MakeAuthenticatedRequest ctx client method url token body with
  | (Some _, None) | (None, Some _) => True
  | _ => False
  end.
Proof.
  unfold internal.MakeAuthenticatedRequest.
  destruct client as [c|]; [|done].
  destruct (prepareRequest ctx method url token body) as [req|e]; [|done].
  destruct (Do c req) as [resp|e]; [|done].
  destruct (400 <=? StatusCode resp); [|done].
  unfold ReadAll. by destruct (failure (Body resp)).
Qed.

(** X2.  The failures that come before the exchange with the server, in the
    order the code checks them: a nil client gives the error
    [request failed, http client is empty] even when the body cannot be
    serialised or the request line is invalid; a body that cannot be
    serialised gives [failed to marshal request body: <cause>] even when the
    request line is invalid; an invalid request line gives
    [failed to create request: <cause>].  The last two wrap their cause, and
    in all three cases the outcome is the same for every server: none is
    contacted. *)
Theorem MakeAuthenticatedRequest_early_failures ctx method url token :
  (forall body,
     MakeAuthenticatedRequest ctx None method url token body =
       (None, Some (errorString "request failed, http client is empty"))) /\
  (forall c b cause,
     Marshal b = Err cause ->
     MakeAuthenticatedRequest ctx (Some c) method url token (Some b) =
       (None, Some (wrapError ("failed to marshal request body: " +:+ Error cause) cause))) /\
  (forall c body cause,
     match body with Some b => exists js, Marshal b = Ok js | None => True end ->
     checkRequest ctx method url = Some cause ->
     MakeAuthenticatedRequest ctx (Some c) method url token body =
       (None, Some (wrapError ("failed to create request: " +:+ Error cause) cause))) /\
  (forall Do' client body,
     client = None \/ (exists e, prepareRequest ctx method url token body = Err e) ->
     internal.MakeAuthenticatedRequest B Marshal Do' checkRequest
       ctx client method url token body =
     MakeAuthenticatedRequest ctx client method url token body).
Proof.
  unfold internal.MakeAuthenticatedRequest, internal.prepareRequest,
    internal.NewRequestWithContext. split_and!.
  - done.
  - intros c b cause ->. done.
  - intros c [b|] cause Hb ->; [|done]. destruct Hb as [js ->]. done.
  - intros Do' client body [->|[e He]]; [done|].
    destruct client as [c|]; [|done].
    destruct body as [b|]; [destruct (Marshal b)|];
      destruct (checkRequest ctx method url); done.
Qed.

(** What a prepared request carries for the token and the body. *)
Lemma prepareRequest_fields ctx method url token body req :
  prepareRequest ctx method url token body = Ok req ->
  Header_Get (ReqHeader req) "Authorization" = "Bearer " +:+ token /\
  match body with
  | None => ReqBody req = None
  | Some b => exists js, Marshal b = Ok js /\ ReqBody req = Some js
  end.
Proof.
  unfold internal.prepareRequest, internal.NewRequestWithContext.
  destruct body as [b|]; [destruct (Marshal b) as [js|e] eqn:Hm|];
    destruct (checkRequest ctx method url); try done; intros [= <-]; cbn;
    split_and!; try done. by exists js.
Qed.

(** X3.  The body of the request that [MakeAuthenticatedRequest] hands to
    [client.Do]: the JSON serialisation of the value passed, and no body at
    all for a nil value.  The request is the same whatever the server, and
    the call returns the classification of the answer to it. *)
Theorem MakeAuthenticatedRequest_body ctx method url token body :
  match body with Some b => exists js, Marshal b = Ok js | None => True end ->
  checkRequest ctx method url = None ->
  exists req,
    (forall Do' c,
       internal.MakeAuthenticatedRequest B Marshal Do' checkRequest
         ctx (Some c) method url token body = internal.classify (Do' c req)) /\
    match body with
    | None => ReqBody req = None
    | Some b => exists js, Marshal b = Ok js /\ ReqBody req = Some js
    end.
Proof.
  intros Hbody Hcheck.
  destruct (MakeAuthenticatedRequest_request B Marshal checkRequest
              _ _ _ token _ Hbody Hcheck) as (req & Hreq & Hcall).
  exists req. split; [exact Hcall|].
  by destruct (prepareRequest_fields _ _ _ _ _ _ Hreq) as [_ ?].
Qed.

End TransportMore.

Lemma MakeAuthenticatedRequest_early_failures_witness :
  internal.MakeAuthenticatedRequest string (fun _ => Err (errorString "unsupported type"))
    (testing.answer (testing.createMockResponseWithString 200 "{}"))
    (fun _ _ _ => Some (errorString "missing protocol scheme"))
    Background (Some testing.plainClient) "GET" "://invalid-url" "secret" (Some "chan")
  = (None, Some (wrapError "failed to marshal request body: unsupported type"
                   (errorString "unsupported type"))) /\
  internal.MakeAuthenticatedRequest string testing.marshalText
    (testing.answer (testing.createMockResponseWithString 200 "{}"))
    (fun _ _ _ => Some (errorString "missing protocol scheme"))
    Background (Some testing.plainClient) "GET" "://invalid-url" "secret" None
  = (None, Some (wrapError "failed to create request: missing protocol scheme"
                   (errorString "missing protocol scheme"))).
Proof.
  split.
  - exact (proj1 (proj2 (MakeAuthenticatedRequest_early_failures string
             (fun _ => Err (errorString "unsupported type"))
             (testing.answer (testing.createMockResponseWithString 200 "{}"))
             (fun _ _ _ => Some (errorString "missing protocol scheme"))
             Background "GET" "://invalid-url" "secret"))
           testing.plainClient "chan" (errorString "unsupported type") eq_refl).
  - exact (proj1 (proj2 (proj2 (MakeAuthenticatedRequest_early_failures string
             testing.marshalText
             (testing.answer (testing.createMockResponseWithString 200 "{}"))
             (fun _ _ _ => Some (errorString "missing protocol scheme"))
             Background "GET" "://invalid-url" "secret")))
           testing.plainClient None (errorString "missing protocol scheme") I eq_refl).
Defined.

(** A POST of the body [{}] to a server that answers with the body it was
    sent. *)
Lemma MakeAuthenticatedRequest_body_witness :
  internal.MakeAuthenticatedRequest string testing.marshalText
    (fun _ req => Ok (testing.createMockResponseWithString 200
                        (default "no body" (ReqBody req))))
    testing.acceptRequest Background (Some testing.plainClient)
    "POST" "https://api.recona.io/cwe" "secret" (Some "{}")
  = (Some (testing.createMockResponseWithString 200 "{}"), None).
Proof.
  destruct (MakeAuthenticatedRequest_body string testing.marshalText
              testing.acceptRequest Background
              "POST" "https://api.recona.io/cwe" "secret" (Some "{}")
              (ex_intro _ "{}" eq_refl) eq_refl)
    as (req & Hcall & js & Hjs & Hbody).
  rewrite Hcall, Hbody. injection Hjs as <-. reflexivity.
Defined.

(** ** The client: requests and rate limits *)

Section ClientRequests.
Variable B : Type.
Variable Marshal : B -> result string.
Variable Do : http.Client -> Request -> result Response.
Variable checkRequest : Context -> string -> string -> option error.
Variable Wait : Limiter -> Context -> option error.

Abbreviation MakeRequest := (reconago.MakeRequest B Marshal Do checkRequest Wait).

(** X4.  When the wait for a rate-limit token ends with an error,
    [MakeRequest] returns no response and the error
    [rate limit wait cancelled: <cause>], which wraps the cause; the outcome
    is the same whatever the body, its serialisation, the request line and
    the server: nothing is sent. *)
Theorem MakeRequest_wait_cancelled (c : Client) ctx method endpoint body cause :
  Wait (rateLimiter c) ctx = Some cause ->
  MakeRequest c ctx method endpoint body =
    (None, Some (wrapError ("rate limit wait cancelled: " +:+ Error cause) cause)) /\
  (forall Marshal' Do' checkRequest' method' endpoint' body',
     reconago.MakeRequest B Marshal' Do' checkRequest' Wait c ctx method' endpoint' body' =
     MakeRequest c ctx method endpoint body).
Proof.
  intros Hwait. unfold reconago.MakeRequest. rewrite Hwait. done.
Qed.

(** X5.  Once the limiter grants a token, [MakeRequest] on a client built
    by [NewClient] for a token is [MakeAuthenticatedRequest] with the
    client's HTTP client, the URL text [https://api.recona.io] followed by
    the endpoint, and that token.  When the body can be serialised and the
    request line is accepted, one request is handed to the HTTP client, the
    same whatever the server; its Authorization value is
    ["Bearer " ++ token], and the call returns the classification of the
    answer to it. *)
Theorem MakeRequest_of_NewClient tok c ctx method endpoint body :
  NewClient tok = (Some c, None) ->
  Wait (rateLimiter c) ctx = None ->
  MakeRequest c ctx method endpoint body =
    internal.MakeAuthenticatedRequest B Marshal Do checkRequest ctx
      (Some (httpClient c)) method ("https://api.recona.io" +:+ endpoint) tok body /\
  (match body with Some b => exists js, Marshal b = Ok js | None => True end ->
   checkRequest ctx method ("https://api.recona.io" +:+ endpoint) = None ->
   exists req,
     Header_Get (ReqHeader req) "Authorization" = "Bearer " +:+ tok /\
     forall Do',
       reconago.MakeRequest B Marshal Do' checkRequest Wait c ctx method endpoint body =
       internal.classify (Do' (httpClient c) req)).
Proof.
  unfold NewClient, NewClientWithOptions.
  destruct (String.eqb tok EmptyString); [done|]. intros [= <-] Hwait.
  unfold reconago.MakeRequest. rewrite Hwait. cbn.
  split; [done|]. intros Hbody Hcheck.
  destruct (MakeAuthenticatedRequest_request B Marshal checkRequest
              _ _ _ tok _ Hbody Hcheck) as (req & Hreq & Hcall).
  exists req. split; [|intros Do'; apply Hcall].
  by destruct (prepareRequest_fields B Marshal checkRequest _ _ _ _ _ _ Hreq) as [? _].
Qed.

End ClientRequests.

Lemma MakeRequest_wait_cancelled_witness :
  reconago.MakeRequest string testing.marshalText testing.echo testing.acceptRequest
    testing.refuse testing.someClient Background "GET" "/domains/example.com" None
  = (None, Some (wrapError "rate limit wait cancelled: context canceled"
                   (errorString "context canceled"))).
Proof.
  exact (proj1 (MakeRequest_wait_cancelled string testing.marshalText testing.echo
                  testing.acceptRequest testing.refuse testing.someClient Background
                  "GET" "/domains/example.com" None (errorString "context canceled")
                  eq_refl)).
Defined.

(** A client for the token [secret] and a server that answers with the
    Authorization value it was sent. *)
Lemma MakeRequest_of_NewClient_witness :
  reconago.MakeRequest string testing.marshalText testing.echo testing.acceptRequest
    testing.grant testing.someClient Background "GET" "/domains/example.com" None
  = (Some (testing.createMockResponseWithString 200 "Bearer secret"), None).
Proof.
  destruct (MakeRequest_of_NewClient string testing.marshalText testing.echo
              testing.acceptRequest testing.grant "secret" testing.someClient
              Background "GET" "/domains/example.com" None eq_refl eq_refl)
    as [_ Hreq].
  destruct (Hreq I eq_refl) as (req & Hauth & Hcall).
  rewrite Hcall. unfold testing.echo. rewrite Hauth. reflexivity.
Defined.

(** The default rate is above zero. *)
Lemma float64_ten_positive : SFleb (float64_of_int 10) float64_zero = false.
Proof. reflexivity. Qed.

(** What a call of [SetRateLimit] leaves behind. *)
Lemma SetRateLimit_after (fmt_f : float64 -> string) (c : Client) (r : float64) (b : Z) :
  snd (SetRateLimit fmt_f c r b) =
    if (negb (SFleb r float64_zero) && (0 <? b))%bool
    then {| baseURL := baseURL c; token := token c; httpClient := httpClient c;
            rateLimiter := {| limit := r; burst := b |} |}
    else c.
Proof.
  unfold SetRateLimit. destruct (SFleb r float64_zero); [done|].
  destruct (Z.leb_spec b 0), (Z.ltb_spec 0 b); try lia; done.
Qed.

Section RateLimitMore.
Variable fmt_f : float64 -> string.

(** X6.  [SetRateLimit] returns no error exactly when the rate is not at
    most zero and the burst size is above zero.  The rate is checked first:
    a rate at most zero gives
    [requests per second must be positive, got: <rate>] whatever the burst
    size, and only then a burst size at most zero gives
    [burst size must be positive, got: <burst>].  NaN is not at most zero:
    with a positive burst size it is accepted and becomes the limiter's
    rate. *)
Theorem SetRateLimit_accepts_iff (c : Client) (r : float64) (b : Z) :
  (fst (SetRateLimit fmt_f c r b) = None <-> SFleb r float64_zero = false /\ 0 < b) /\
  (SFleb r float64_zero = true ->
     fst (SetRateLimit fmt_f c r b) =
       Some (errorString ("requests per second must be positive, got: " +:+ fmt_f r))) /\
  (SFleb r float64_zero = false -> b <= 0 ->
     fst (SetRateLimit fmt_f c r b) =
       Some (errorString ("burst size must be positive, got: " +:+ fmt_d b))) /\
  (0 < b ->
     fst (SetRateLimit fmt_f c S754_nan b) = None /\
     GetRateLimitStatus (snd (SetRateLimit fmt_f c S754_nan b)) = (S754_nan, b)).
Proof.
  unfold SetRateLimit. split_and!.
  - destruct (SFleb r float64_zero); [split; [done|by intros []]|].
    destruct (Z.leb_spec b 0); split; try done; intros []; lia.
  - by intros ->.
  - intros -> Hb. by destruct (Z.leb_spec b 0); [|lia].
  - intros Hb. cbn. by destruct (Z.leb_spec b 0); [lia|].
Qed.

(** X8.  Of two calls of [SetRateLimit] in a row the second decides when it
    is accepted: the client is then what the second call alone would have
    made of the original client, whatever the first call did; when the
    second call is refused, the client is what the first call left. *)
Theorem SetRateLimit_last_call_wins (c : Client) (r1 r2 : float64) (b1 b2 : Z) :
  let c1 := snd (SetRateLimit fmt_f c r1 b1) in
  (SFleb r2 float64_zero = false -> 0 < b2 ->
     snd (SetRateLimit fmt_f c1 r2 b2) = snd (SetRateLimit fmt_f c r2 b2) /\
     GetRateLimitStatus (snd (SetRateLimit fmt_f c1 r2 b2)) = (r2, b2)) /\
  (SFleb r2 float64_zero = true \/ b2 <= 0 ->
     snd (SetRateLimit fmt_f c1 r2 b2) = c1).
Proof.
  cbn zeta. rewrite !SetRateLimit_after. split.
  - intros Hr Hb. rewrite Hr. destruct (Z.ltb_spec 0 b2); [|lia]. cbn.
    by destruct (negb (SFleb r1 float64_zero) && (0 <? b1))%bool.
  - intros [Hr|Hb]; [by rewrite Hr|].
    destruct (Z.ltb_spec 0 b2); [lia|]. by rewrite andb_false_r.
Qed.

End RateLimitMore.

(** A series of calls keeps a valid limiter valid and the other fields as
    they are. *)
Lemma setRateLimits_keeps (settings : list (float64 * Z)) :
  forall c : Client,
    SFleb (limit (rateLimiter c)) float64_zero = false ->
    0 < burst (rateLimiter c) ->
    let c' := testing.setRateLimits c settings in
    SFleb (limit (rateLimiter c')) float64_zero = false /\
    0 < burst (rateLimiter c') /\
    baseURL c' = baseURL c /\ token c' = token c /\ httpClient c' = httpClient c.
Proof.
  unfold testing.setRateLimits.
  induction settings as [|[r b] settings IH]; intros c Hr Hb; [done|].
  cbn [List.fold_left fst snd]. rewrite SetRateLimit_after.
  destruct (negb (SFleb r float64_zero) && (0 <? b))%bool eqn:Hok; [|by apply IH].
  apply andb_prop in Hok as [Hr' Hb'].
  edestruct IH as (? & ? & -> & -> & ->); [| |done]; cbn.
  - by destruct (SFleb r float64_zero).
  - lia.
Qed.

(** X7.  The limiter of a client is never left with a rate at most zero or
    a burst size at most zero: [NewClientWithOptions] builds it that way, and
    any series of [SetRateLimit] calls, accepted or refused, keeps it so;
    the base URL, the token and the HTTP client stay those of the
    construction. *)
Theorem rate_limit_stays_valid (tok : string) (opts : ClientOptions) (c : Client)
    (settings : list (float64 * Z)) :
  NewClientWithOptions tok opts = (Some c, None) ->
  let c' := testing.setRateLimits c settings in
  SFleb (limit (rateLimiter c')) float64_zero = false /\
  0 < burst (rateLimiter c') /\
  baseURL c' = "https://api.recona.io" /\ token c' = tok /\
  httpClient c' = httpClient c.
Proof.
  intros Hnew. cbn zeta.
  assert (Hinit : SFleb (limit (rateLimiter c)) float64_zero = false /\
                  0 < burst (rateLimiter c) /\
                  baseURL c = "https://api.recona.io" /\ token c = tok /\
                  httpClient c = httpClient c).
  { unfold NewClientWithOptions in Hnew.
    destruct (String.eqb tok EmptyString); [done|]. injection Hnew as <-. cbn.
    split_and!; try done.
    - by destruct (SFleb (RequestsPerSec opts) float64_zero) eqn:Hr.
    - destruct (Z.leb_spec (BurstSize opts) 0); [done|lia]. }
  destruct Hinit as (Hr0 & Hb0 & <- & <- & _).
  destruct (setRateLimits_keeps settings c Hr0 Hb0) as (? & ? & -> & -> & ->). done.
Qed.

Lemma rate_limit_stays_valid_witness :
  let c' := testing.setRateLimits testing.someClient
              [(float64_of_int 50, 5); (float64_of_int (-1), 7); (S754_nan, 0)] in
  SFleb (limit (rateLimiter c')) float64_zero = false /\
  0 < burst (rateLimiter c') /\
  baseURL c' = "https://api.recona.io" /\ token c' = "secret" /\
  httpClient c' = httpClient testing.someClient.
Proof.
  exact (rate_limit_stays_valid "secret" zeroOptions testing.someClient
           [(float64_of_int 50, 5); (float64_of_int (-1), 7); (S754_nan, 0)] eq_refl).
Defined.

(** X9.  The effective configuration of a constructed client, given back
    as options with the same token, builds the same client again. *)
Theorem NewClientWithOptions_round_trip (tok : string) (opts : ClientOptions) (c : Client) :
  NewClientWithOptions tok opts = (Some c, None) ->
  NewClientWithOptions tok
    {| Timeout := http.Timeout (httpClient c);
       RequestsPerSec := limit (rateLimiter c);
       BurstSize := burst (rateLimiter c) |} = (Some c, None).
Proof.
  unfold NewClientWithOptions.
  destruct (String.eqb tok EmptyString); [done|]. intros [= <-]. cbn.
  do 2 f_equal. f_equal.
  - f_equal. destruct (Z.leb_spec (Timeout opts) 0); [done|].
    by destruct (Z.leb_spec (Timeout opts) 0); [lia|].
  - unfold NewLimiter. f_equal.
    + destruct (SFleb (RequestsPerSec opts) float64_zero) eqn:Hr; [done|by rewrite Hr].
    + destruct (Z.leb_spec (BurstSize opts) 0); [done|].
      by destruct (Z.leb_spec (BurstSize opts) 0); [lia|].
Qed.

Lemma NewClientWithOptions_round_trip_witness :
  NewClientWithOptions "secret"
    {| Timeout := 60 * Second; RequestsPerSec := float64_of_int 10; BurstSize := 2 |}
  = NewClient "secret".
Proof.
  exact (NewClientWithOptions_round_trip "secret" zeroOptions testing.someClient eq_refl).
Defined.

Lemma SetRateLimit_last_call_wins_witness :
  GetRateLimitStatus
    (snd (SetRateLimit testing.fmt_f
            (snd (SetRateLimit testing.fmt_f testing.someClient (float64_of_int 50) 5))
            (float64_of_int 20) 4))
  = (float64_of_int 20, 4).
Proof.
  exact (proj2 (proj1 (SetRateLimit_last_call_wins testing.fmt_f testing.someClient
                         (float64_of_int 50) (float64_of_int 20) 5 4)
                  eq_refl ltac:(lia))).
Defined.

Lemma SetRateLimit_accepts_iff_witness :
  fst (SetRateLimit testing.fmt_f testing.someClient (float64_of_int (-1)) 0)
  = Some (errorString "requests per second must be positive, got: <float>") /\
  fst (SetRateLimit testing.fmt_f testing.someClient (float64_of_int 5) (-3))
  = Some (errorString "burst size must be positive, got: -3") /\
  fst (SetRateLimit testing.fmt_f testing.someClient S754_nan 3) = None.
Proof.
  destruct (SetRateLimit_accepts_iff testing.fmt_f testing.someClient
              (float64_of_int (-1)) 0) as (_ & Hrate & _ & _).
  destruct (SetRateLimit_accepts_iff testing.fmt_f testing.someClient
              (float64_of_int 5) (-3)) as (_ & _ & Hburst & Hnan).
  split; [exact (Hrate eq_refl)|]. split; [exact (Hburst eq_refl ltac:(lia))|].
  destruct (SetRateLimit_accepts_iff testing.fmt_f testing.someClient S754_nan 3)
    as (_ & _ & _ & Hn).
  exact (proj1 (Hn ltac:(lia))).
Defined.

(** ** The single-request methods of the services *)

Section ServiceCalls.
Context {C : Type} `{!internal.Client SearchRequest C}.
Variable T : Type.
Variable name endpoint : string.
Variable DecodeRecord : ReadCloser -> option T * option error.
Variable DecodeResponse : ReadCloser -> option (RecordsResponse T) * option error.

Abbreviation GetDetails := (services.GetDetails T name endpoint DecodeRecord).
Abbreviation Search := (services.Search T name endpoint DecodeResponse).

(** X10.  [GetDetails] and [Search] never return a value together with an
    error.  An error they return wraps its cause, which is either the error
    of the client's request, under the message
    [failed to get <name> details for ID <id>: ] resp.
    [failed to search <name> records: ], or the error of the decoder, under
    [failed to decode <name> details response: ] resp.
    [failed to decode <name> search response: ]; whatever the decoder had
    filled in before it failed is dropped.  Without an error the value is
    the decoder's. *)
Theorem service_call_results (s : Service) (c : C) (ctx : Context) :
  client s = Some c ->
  (forall id v err,
     fst (GetDetails s ctx id) = Return (v, Some err) ->
     let answer := fst (internal.MakeRequest c ctx "GET" (endpoint +:+ "/" +:+ id) None) in
     v = None /\
     exists cause, Unwrap err = Some cause /\
       ((snd answer = Some cause /\
         Error err = ("failed to get " +:+ name +:+ " details for ID " +:+ id +:+ ": ")
                       +:+ Error cause) \/
        (exists resp, answer = (Some resp, None) /\
           snd (DecodeRecord (Body resp)) = Some cause /\
           Error err = ("failed to decode " +:+ name +:+ " details response: ")
                         +:+ Error cause))) /\
  (forall id v,
     fst (GetDetails s ctx id) = Return (v, None) ->
     exists resp,
       fst (internal.MakeRequest c ctx "GET" (endpoint +:+ "/" +:+ id) None)
         = (Some resp, None) /\
       DecodeRecord (Body resp) = (v, None)) /\
  (forall params v err,
     fst (Search s ctx params) = Return (v, Some err) ->
     let answer :=
       fst (internal.MakeRequest c ctx "POST" (endpoint +:+ "/search") (Some params)) in
     v = None /\
     exists cause, Unwrap err = Some cause /\
       ((snd answer = Some cause /\
         Error err = ("failed to search " +:+ name +:+ " records: ") +:+ Error cause) \/
        (exists resp, answer = (Some resp, None) /\
           snd (DecodeResponse (Body resp)) = Some cause /\
           Error err = ("failed to decode " +:+ name +:+ " search response: ")
                         +:+ Error cause))) /\
  (forall params v,
     fst (Search s ctx params) = Return (v, None) ->
     exists resp,
       fst (internal.MakeRequest c ctx "POST" (endpoint +:+ "/search") (Some params))
         = (Some resp, None) /\
       DecodeResponse (Body resp) = (v, None)).
Proof.
  intros Hc. unfold services.GetDetails, services.Search, internal.DecodeJSON.
  rewrite Hc. split_and!.
  - intros id v err.
    destruct (internal.MakeRequest c ctx "GET" (endpoint +:+ "/" +:+ id) None)
      as [[[resp|] [e|]] c']; cbn.
    + intros [= <- <-]. split; [done|]. exists e. split; [done|]. by left.
    + destruct (DecodeRecord (Body resp)) as [v' [e|]] eqn:Hd; cbn; [|done].
      intros [= <- <-]. split; [done|]. exists e. split; [done|]. right.
      exists resp. by rewrite Hd.
    + intros [= <- <-]. split; [done|]. exists e. split; [done|]. by left.
    + done.
  - intros id v.
    destruct (internal.MakeRequest c ctx "GET" (endpoint +:+ "/" +:+ id) None)
      as [[[resp|] [e|]] c']; cbn; try done.
    destruct (DecodeRecord (Body resp)) as [v' [e|]] eqn:Hd; cbn; [done|].
    intros [= <-]. by exists resp.
  - intros params v err.
    destruct (internal.MakeRequest c ctx "POST" (endpoint +:+ "/search") (Some params))
      as [[[resp|] [e|]] c']; cbn.
    + intros [= <- <-]. split; [done|]. exists e. split; [done|]. by left.
    + destruct (DecodeResponse (Body resp)) as [v' [e|]] eqn:Hd; cbn; [|done].
      intros [= <- <-]. split; [done|]. exists e. split; [done|]. right.
      exists resp. by rewrite Hd.
    + intros [= <- <-]. split; [done|]. exists e. split; [done|]. by left.
    + done.
  - intros params v.
    destruct (internal.MakeRequest c ctx "POST" (endpoint +:+ "/search") (Some params))
      as [[[resp|] [e|]] c']; cbn; try done.
    destruct (DecodeResponse (Body resp)) as [v' [e|]] eqn:Hd; cbn; [done|].
    intros [= <-]. by exists resp.
Qed.

(** X11.  [GetDetails] and [Search] panic, on a nil dereference, when the
    service has no client, and when the client returns neither a response
    nor an error.  When the client returns an error they do not panic: they
    return no value and the wrapped error, whether or not a response came
    with the error. *)
Theorem service_call_panics (s : Service) (ctx : Context) (id : string)
    (params : SearchRequest) :
  (client s = None ->
     fst (GetDetails s ctx id) = Panic nilDereference /\
     fst (Search s ctx params) = Panic nilDereference) /\
  (forall c, client s = Some c ->
     let details :=
       fst (internal.MakeRequest c ctx "GET" (endpoint +:+ "/" +:+ id) None) in
     let page :=
       fst (internal.MakeRequest c ctx "POST" (endpoint +:+ "/search") (Some params)) in
     (details = (None, None) -> fst (GetDetails s ctx id) = Panic nilDereference) /\
     (page = (None, None) -> fst (Search s ctx params) = Panic nilDereference) /\
     (forall resp err, details = (resp, Some err) ->
        fst (GetDetails s ctx id) =
          Return (None, Some (wrapError
            (("failed to get " +:+ name +:+ " details for ID " +:+ id +:+ ": ")
               +:+ Error err) err))) /\
     (forall resp err, page = (resp, Some err) ->
        fst (Search s ctx params) =
          Return (None, Some (wrapError
            (("failed to search " +:+ name +:+ " records: ") +:+ Error err) err)))).
Proof.
  unfold services.GetDetails, services.Search, internal.DecodeJSON. split.
  - intros ->. done.
  - intros c ->. cbn zeta. split_and!.
    + destruct (internal.MakeRequest c ctx "GET" (endpoint +:+ "/" +:+ id) None)
        as [answer c']; cbn. by intros ->.
    + destruct (internal.MakeRequest c ctx "POST" (endpoint +:+ "/search") (Some params))
        as [answer c']; cbn. by intros ->.
    + intros resp err.
      destruct (internal.MakeRequest c ctx "GET" (endpoint +:+ "/" +:+ id) None)
        as [answer c']; cbn. intros ->. by destruct resp.
    + intros resp err.
      destruct (internal.MakeRequest c ctx "POST" (endpoint +:+ "/search") (Some params))
        as [answer c']; cbn. intros ->. by destruct resp.
Qed.

End ServiceCalls.

Lemma service_call_results_witness :
  exists cause,
    Unwrap (wrapError "failed to get domain details for ID test-domain: network error"
              (errorString "network error")) = Some cause /\
    snd (fst (internal.MakeRequest
                (testing.mock (fun _ _ _ => (None, Some (errorString "network error"))))
                Background "GET" "/domains/test-domain" None)) = Some cause.
Proof.
  destruct (proj1 (@service_call_results testing.MockClient testing.MockClient_Client
                     string "domain"
                     "/domains" testing.decodeRecord (fun _ => (None, None))
                     (testing.serviceOver
                        (fun _ _ _ => (None, Some (errorString "network error"))))
                     _ Background eq_refl)
              "test-domain" None
              (wrapError "failed to get domain details for ID test-domain: network error"
                 (errorString "network error")) ltac:(vm_compute; reflexivity))
    as (_ & cause & Hcause & [[Hreq _]|(resp & Hresp & _)]).
  - exists cause. split; [exact Hcause|exact Hreq].
  - discriminate Hresp.
Defined.

(** A service without client. *)
Lemma service_call_panics_witness :
  fst (DomainService.GetDetails string testing.decodeRecord
         {| client := @None testing.MockClient |} Background "test-id")
  = Panic nilDereference.
Proof.
  exact (proj1 (proj1 (@service_call_panics testing.MockClient testing.MockClient_Client
                         string "domain" "/domains" testing.decodeRecord
                         (fun _ => (None, None)) {| client := None |} Background
                         "test-id" (pageRequest testing.someSearch 100 0))
                  eq_refl)).
Defined.

(** ** The requests of the services, as a recording client sees them *)

Section RecordedCalls.
Variable T Host Profile CWEResponse : Type.
Variable name endpoint : string.
Variable DecodeRecord : ReadCloser -> option T * option error.
Variable DecodeResponse : ReadCloser -> option (RecordsResponse T) * option error.
Variable DecodeHost : ReadCloser -> option Host * option error.
Variable DecodeProfile : ReadCloser -> option Profile * option error.
Variable DecodeCWE : ReadCloser -> option CWEResponse * option error.

(** X12.  Each single-request method makes exactly one request, whatever
    the client answers and whatever decoding makes of it: [GetDetails] a GET
    of [<endpoint>/<id>] without body, [Search] a POST of
    [<endpoint>/search] with the search request as body, the details of an
    autonomous system a GET of [/autonomous-system/<number>], the account
    details a GET of [/customers/account], and [GetCWE] a POST of [/cwe] with
    its parameters as body. *)
Theorem service_calls_recorded (ctx : Context) :
  (forall (m : testing.Recorder SearchRequest) id,
     snd (services.GetDetails T name endpoint DecodeRecord {| client := Some m |} ctx id)
     = testing.afterCall m "GET" (endpoint +:+ "/" +:+ id) None) /\
  (forall (m : testing.Recorder SearchRequest) params,
     snd (services.Search T name endpoint DecodeResponse {| client := Some m |} ctx params)
     = testing.afterCall m "POST" (endpoint +:+ "/search") (Some params)) /\
  (forall (m : testing.Recorder SearchRequest) number,
     snd (ASService.GetDetails Host DecodeHost {| client := Some m |} ctx number)
     = testing.afterCall m "GET" ("/autonomous-system/" +:+ number) None) /\
  (forall (B : Type) (m : testing.Recorder B),
     snd (AccountService.GetDetails Profile DecodeProfile {| client := Some m |} ctx)
     = testing.afterCall m "GET" "/customers/account" None) /\
  (forall (m : testing.Recorder (list string)) ids,
     snd (CVEService.GetCWE CWEResponse DecodeCWE {| client := Some m |} ctx ids)
     = testing.afterCall m "POST" "/cwe" (Some ids)).
Proof.
  unfold services.GetDetails, services.Search, ASService.GetDetails,
    AccountService.GetDetails, CVEService.GetCWE, internal.DecodeJSON,
    testing.afterCall.
  split_and!.
  - intros m id. cbn.
    destruct (testing.answers m "GET" (endpoint +:+ "/" +:+ id) None) as [[r|] [e|]];
      try done. by destruct (DecodeRecord (Body r)) as [? [?|]].
  - intros m params. cbn.
    destruct (testing.answers m "POST" (endpoint +:+ "/search") (Some params))
      as [[r|] [e|]]; try done. by destruct (DecodeResponse (Body r)) as [? [?|]].
  - intros m number. cbn.
    destruct (testing.answers m "GET" ("/autonomous-system/" +:+ number) None)
      as [[r|] [e|]]; try done. by destruct (DecodeHost (Body r)) as [? [?|]].
  - intros B m. cbn.
    destruct (testing.answers m "GET" AccountService.accountEndpoint None)
      as [[r|] [e|]]; try done. by destruct (DecodeProfile (Body r)) as [? [?|]].
  - intros m ids. cbn.
    destruct (testing.answers m "POST" "/cwe" (Some ids)) as [[r|] [e|]]; try done.
    by destruct (DecodeCWE (Body r)) as [? [?|]].
Qed.

(** X13.  The details of an autonomous system, the account details and
    [GetCWE] never return a value together with an error, and an error they
    return wraps its cause. *)
Theorem other_calls_value_or_error {B C : Type} `{!internal.Client SearchRequest C}
    `{!internal.Client B C} (CWEClient : internal.Client (list string) C)
    (s : Service) (ctx : Context) :
  (forall number v err,
     fst (ASService.GetDetails Host DecodeHost s ctx number) = Return (v, Some err) ->
     v = None /\ Unwrap err <> None) /\
  (forall v err,
     fst (AccountService.GetDetails (B := B) Profile DecodeProfile s ctx)
       = Return (v, Some err) ->
     v = None /\ Unwrap err <> None) /\
  (forall ids v err,
     fst (CVEService.GetCWE (CWEClient := CWEClient) CWEResponse DecodeCWE s ctx ids)
       = Return (v, Some err) ->
     v = None /\ Unwrap err <> None).
Proof.
  unfold ASService.GetDetails, AccountService.GetDetails, CVEService.GetCWE,
    internal.DecodeJSON.
  destruct (client s) as [c|]; [|by split_and!]. split_and!.
  - intros number v err.
    destruct (internal.MakeRequest c ctx "GET" ("/autonomous-system/" +:+ number) None)
      as [[[r|] [e|]] c']; cbn; try done; try (by intros [= <- <-]).
    destruct (DecodeHost (Body r)) as [? [?|]]; cbn; [|done]. by intros [= <- <-].
  - intros v err.
    destruct (internal.MakeRequest c ctx "GET" AccountService.accountEndpoint None)
      as [[[r|] [e|]] c']; cbn; try done; try (by intros [= <- <-]).
    destruct (DecodeProfile (Body r)) as [? [?|]]; cbn; [|done]. by intros [= <- <-].
  - intros ids v err.
    destruct (internal.MakeRequest c ctx "POST" "/cwe" (Some ids))
      as [[[r|] [e|]] c']; cbn; try done; try (by intros [= <- <-]).
    destruct (DecodeCWE (Body r)) as [? [?|]]; cbn; [|done]. by intros [= <- <-].
Qed.

End RecordedCalls.

Lemma other_calls_value_or_error_witness :
  Unwrap (wrapError "failed to get AS details for number 12345: network error"
            (errorString "network error")) <> None.
Proof.
  exact (proj2 (proj1 (@other_calls_value_or_error string string string
           (fun _ => (None, None)) (fun _ => (None, None)) (fun _ => (None, None))
           SearchRequest testing.MockClient testing.MockClient_Client
           testing.MockClient_Client
           {| internal.MakeRequest m ctx method path body :=
                ((None, Some (errorString "network error")), m) |}
           (testing.serviceOver (fun _ _ _ => (None, Some (errorString "network error"))))
           Background)
         "12345" None
         (wrapError "failed to get AS details for number 12345: network error"
            (errorString "network error"))
         ltac:(vm_compute; reflexivity))).
Defined.

(** ** The paginated search, read from its result *)

Section SearchAllMore.
Context {C : Type} `{!internal.Client SearchRequest C}.
Variable T : Type.
Variable name endpoint : string.
Variable DecodeResponse : ReadCloser -> option (RecordsResponse T) * option error.
Variable ctx : Context.
Variable baseParams : models.Search.

Abbreviation Search := (services.Search T name endpoint DecodeResponse).
Abbreviation searchLoop := (services.searchLoop T name endpoint DecodeResponse).
Abbreviation SearchAll := (services.SearchAll T name endpoint DecodeResponse).
Abbreviation pages := (services.pages T name endpoint DecodeResponse ctx baseParams).
Abbreviation stops := (services.stops T name).
Abbreviation requestOffset := (services.requestOffset T).
Abbreviation requestLimit := (services.requestLimit T).
Abbreviation pageOf := (services.pageOf T).
Abbreviation pageCount := (services.pageCount T).
Abbreviation succeeded := (services.succeeded T).
Abbreviation failedWith := (services.failedWith T).
Abbreviation pageError := (services.pageError name).
Abbreviation pageRequest := (services.pageRequest baseParams).

(** The result of a run, read backwards: what the calls were like. *)
Lemma pages_result s o all tr res s' :
  pages s o all tr res s' ->
  match res with
  | Return (l, None) =>
      Forall succeeded tr /\ l = all ++ List.concat (List.map pageOf tr)
  | Return (l, Some e) =>
      l = [] /\
      exists pre c cause,
        tr = pre ++ [c] /\ Forall succeeded pre /\ failedWith c cause /\
        e = pageError (requestOffset c) cause
  | Panic msg =>
      exists pre c,
        tr = pre ++ [c] /\ Forall succeeded pre /\
        (snd c = Panic msg \/ (snd c = Return (None, None) /\ msg = nilDereference))
  end.
Proof.
  induction 1 as [|s o all out s' res Hlt Hcall Hstop
                  |s o all resp s' tr res s'' Hlt Hcall Hstop Hpages IH].
  - split; [constructor|]. cbn. by rewrite app_nil_r.
  - destruct out as [[[resp|] [err|]]|msg].
    + injection Hstop as <-. split; [done|].
      exists [], (request baseParams o, Return (Some resp, Some err)), err.
      split_and!; [done|constructor|by eexists|done].
    + apply stops_success in Hstop as [_ ->]; [|done].
      split; [repeat constructor; by eexists|].
      cbn. unfold services.pageOf. cbn. by rewrite app_nil_r.
    + injection Hstop as <-. split; [done|].
      exists [], (request baseParams o, Return (None, Some err)), err.
      split_and!; [done|constructor|by eexists|done].
    + injection Hstop as <-.
      exists [], (request baseParams o, Return (None, None)).
      split_and!; [done|constructor|by right].
    + injection Hstop as <-.
      exists [], (request baseParams o, Panic msg).
      split_and!; [done|constructor|by left].
  - assert (Hhead : succeeded (request baseParams o, Return (Some resp, None)))
      by (by eexists).
    destruct res as [[l [e|]]|msg].
    + destruct IH as (-> & pre & c & cause & -> & Hpre & Hc & ->).
      split; [done|]. eexists (_ :: pre), c, cause.
      split_and!; [done|by constructor|done|done].
    + destruct IH as (Hok & ->). split; [by constructor|].
      cbn. unfold services.pageOf at 2. cbn. by rewrite app_assoc.
    + destruct IH as (pre & c & -> & Hpre & Hc).
      eexists (_ :: pre), c. split_and!; [done|by constructor|done].
Qed.

(** The number of calls left at an offset. *)
Lemma pages_count s o all tr res s' :
  pages s o all tr res s' ->
  Z.of_nat (List.length tr) * pageSize <= Z.max 0 (maxResults - o) + (pageSize - 1).
Proof.
  induction 1 as [|s o all out s' res Hlt Hcall Hstop
                  |s o all resp s' tr res s'' Hlt Hcall Hstop Hpages IH].
  - cbn. unfold pageSize. lia.
  - cbn. unfold pageSize, maxResults in *. lia.
  - apply stops_full in Hstop as [Hfull Hpos]; [|done].
    cbn [List.length]. unfold pageSize, maxResults in *. lia.
Qed.

(** At or beyond the cap the loop makes no call. *)
Lemma pages_at_cap s o all tr res s' :
  pages s o all tr res s' -> maxResults <= o ->
  tr = [] /\ res = Return (all, None) /\ s' = s.
Proof. inversion 1; subst; [done|lia|lia]. Qed.


(** X15.  When [SearchAll] returns an error, it returns no record, the
    failed call is the last one, all calls before it had succeeded, and the
    error is [failed to search <name> records at offset <o>: <cause>] for the
    offset [o] of the failed call and its error as the wrapped cause. *)
Theorem SearchAll_error_is_last_call (s : Service) :
  exists r, SearchAll s ctx baseParams = Some r /\
    forall l err, returned T r = Return (l, Some err) ->
      l = [] /\
      exists pre c cause,
        calls T r = pre ++ [c] /\ Forall succeeded pre /\ failedWith c cause /\
        Unwrap err = Some cause /\
        Error err = ("failed to search " +:+ name +:+ " records at offset "
                       +:+ fmt_d (requestOffset c) +:+ ": ") +:+ Error cause.
Proof.
  destruct (SearchAll_pages T name endpoint DecodeResponse ctx baseParams s)
    as (r & Hr & Hpages).
  exists r. split; [exact Hr|]. intros l err Hres.
  apply pages_result in Hpages. rewrite Hres in Hpages.
  destruct Hpages as (-> & pre & c & cause & Hcalls & Hpre & Hc & ->).
  split; [done|]. by exists pre, c, cause.
Qed.

(** X16.  [SearchAll] never makes more than 100 calls, whatever the
    backend answers. *)
Theorem SearchAll_at_most_100_calls (s : Service) :
  exists r, SearchAll s ctx baseParams = Some r /\
            (List.length (calls T r) <= 100)%nat.
Proof.
  destruct (SearchAll_pages T name endpoint DecodeResponse ctx baseParams s)
    as (r & Hr & Hpages).
  exists r. split; [exact Hr|].
  apply pages_count in Hpages. unfold pageSize, maxResults in Hpages. lia.
Qed.

(** X17.  The cap bounds the requests, not the result: when the first page
    brings at least 10000 records (a backend that ignores the limit of
    100), [SearchAll] makes this one call and returns all the records of the
    page, however many. *)
Theorem SearchAll_oversized_page (s s1 : Service) (resp : RecordsResponse T) :
  Search s ctx (pageRequest 100 0) = (Return (Some resp, None), s1) ->
  10000 <= Z.of_nat (List.length (Records resp)) ->
  exists r, SearchAll s ctx baseParams = Some r /\
    returned T r = Return (Records resp, None) /\
    calls T r = [(pageRequest 100 0, Return (Some resp, None))].
Proof.
  intros Hcall Hbig.
  destruct (SearchAll_pages T name endpoint DecodeResponse ctx baseParams s)
    as (r & Hr & Hpages).
  exists r. split; [exact Hr|].
  eapply pages_unroll_next in Hpages as (tr & Htr & Hpages);
    [|done|exact Hcall|unfold pageSize, maxResults; cbn; lia].
  apply pages_at_cap in Hpages as (-> & Hres & _); [|unfold maxResults; lia].
  split; [exact Hres|exact Htr].
Qed.

(** A call that brought neither a response nor an error is the last, and
    the run panics. *)
Lemma pages_nil_page s o all tr res s' :
  pages s o all tr res s' ->
  forall pre c post,
    tr = pre ++ c :: post ->
    snd c = Return (None, None) ->
    post = [] /\ res = Panic nilDereference.
Proof.
  induction 1 as [|s o all out s' res Hlt Hcall Hstop
                  |s o all resp0 s' tr res s'' Hlt Hcall Hstop Hpages IH];
    intros pre c post Htr Hc.
  - by destruct pre.
  - destruct pre as [|c0 pre]; [|by destruct pre].
    injection Htr as <- <-. cbn in Hc. subst out. by injection Hstop as <-.
  - destruct pre as [|c0 pre].
    + injection Htr as <- <-. done.
    + injection Htr as <- ->. by eapply IH.
Qed.

Section Stateless.

(** A client whose answers do not depend on the calls made before: after
    any call it answers every request as it would have before the call. *)
Hypothesis stateless :
  forall (c : C) ctx' method path body,
    internal.sameAnswers (snd (internal.MakeRequest c ctx' method path body)) c.

Lemma alike_after_Search s params : alike (snd (Search s ctx params)) s.
Proof.
  unfold alike, services.Search. destruct (client s) as [c|] eqn:Hc.
  - pose proof (stateless c ctx "POST" (endpoint +:+ "/search") (Some params)) as Hsame.
    destruct (internal.MakeRequest c ctx "POST" (endpoint +:+ "/search") (Some params))
      as [[[resp|] [e|]] c']; cbn in *; try done.
    by destruct (internal.DecodeJSON DecodeResponse (Body resp)) as [? [?|]].
  - cbn. by rewrite Hc.
Qed.

Lemma alike_trans s1 s2 s3 : alike s1 s2 -> alike s2 s3 -> alike s1 s3.
Proof.
  unfold alike, internal.sameAnswers.
  destruct (client s1), (client s2), (client s3); try done;
    intros H12 H23 ctx' method path body; by rewrite H12.
Qed.

Lemma alike_sym s1 s2 : alike s1 s2 -> alike s2 s1.
Proof.
  unfold alike, internal.sameAnswers.
  destruct (client s1), (client s2); try done;
    intros H12 ctx' method path body; by rewrite H12.
Qed.

Lemma Search_alike s s' params :
  alike s s' ->
  fst (Search s ctx params) = fst (Search s' ctx params).
Proof.
  unfold alike, services.Search.
  destruct (client s) as [c|], (client s') as [c'|]; try done. intros Hsame.
  specialize (Hsame ctx "POST" (endpoint +:+ "/search") (Some params)).
  destruct (internal.MakeRequest c ctx "POST" (endpoint +:+ "/search") (Some params))
    as [[resp err] c1]; destruct (internal.MakeRequest c' ctx "POST" _ _)
    as [[resp' err'] c1']. cbn in Hsame. injection Hsame as <- <-.
  destruct err; [done|]. destruct resp as [r|]; [|done].
  by destruct (internal.DecodeJSON DecodeResponse (Body r)) as [? [?|]].
Qed.

Lemma pages_alike s o all tr res s' :
  pages s o all tr res s' -> alike s' s.
Proof.
  induction 1 as [|s o all out s' res Hlt Hcall Hstop
                  |s o all resp s' tr res s'' Hlt Hcall Hstop Hpages IH].
  - unfold alike. by destruct (client s).
  - pose proof (alike_after_Search s (request baseParams o)) as Ha.
    by rewrite Hcall in Ha.
  - pose proof (alike_after_Search s (request baseParams o)) as Ha.
    rewrite Hcall in Ha. by eapply alike_trans.
Qed.

Lemma searchLoop_alike (fuel : nat) :
  forall s s' o limit all log,
    alike s s' ->
    option_map (fun r => (returned T r, calls T r))
               (searchLoop fuel ctx baseParams s o limit all log) =
    option_map (fun r => (returned T r, calls T r))
               (searchLoop fuel ctx baseParams s' o limit all log).
Proof.
  induction fuel as [|fuel IH]; intros s s' o limit all log Halike;
    cbn [services.searchLoop]; destruct (o <? maxResults); try done.
  set (params :=
    {| SearchRequest_Search := baseParams;
       SearchRequest_Pagination :=
         {| Limit := if maxResults - o <? pageSize then maxResults - o else limit;
            Offset := o |} |}).
  pose proof (Search_alike s s' params Halike) as Hsame.
  pose proof (alike_after_Search s params) as Hs.
  pose proof (alike_after_Search s' params) as Hs'.
  destruct (Search s ctx params) as [out s1];
    destruct (Search s' ctx params) as [out' s1'].
  cbn in Hsame, Hs, Hs'. subst out'.
  destruct out as [[[resp|] [err|]]|msg]; try done.
  destruct (Z.of_nat (List.length (Records resp)) =? 0); [done|].
  destruct (Z.of_nat (List.length (Records resp)) <? _); [done|].
  apply IH. eapply alike_trans; [exact Hs|].
  eapply alike_trans; [exact Halike|]. by apply alike_sym.
Qed.

(** X18.  With a client whose answers do not depend on the calls made
    before, running [SearchAll] again on the service the first run left
    makes the same calls and returns the same result. *)
Theorem SearchAll_idempotent (s : Service) :
  exists r1 r2,
    SearchAll s ctx baseParams = Some r1 /\
    SearchAll (after T r1) ctx baseParams = Some r2 /\
    returned T r2 = returned T r1 /\ calls T r2 = calls T r1.
Proof.
  destruct (SearchAll_pages T name endpoint DecodeResponse ctx baseParams s)
    as (r1 & Hr1 & Hpages).
  destruct (SearchAll_pages T name endpoint DecodeResponse ctx baseParams (after T r1))
    as (r2 & Hr2 & _).
  exists r1, r2. split; [exact Hr1|]. split; [exact Hr2|].
  pose proof (searchLoop_alike (Z.to_nat maxResults) (after T r1) s 0 pageSize [] []
                (pages_alike _ _ _ _ _ _ Hpages)) as Hsame.
  unfold services.SearchAll in Hr1, Hr2. rewrite Hr1, Hr2 in Hsame.
  by injection Hsame as -> ->.
Qed.

End Stateless.

Section NullPage.

(** encoding/json: the literal null, read through to the end of the stream,
    sets the pointer to nil and is no error. *)
Hypothesis DecodeResponse_null :
  forall r, data r = "null" -> failure r = None -> DecodeResponse r = (None, None).


End NullPage.

End SearchAllMore.

(** ** The paginated search over a recording client *)

Section SearchAllRecorded.
Variable T : Type.
Variable name endpoint : string.
Variable DecodeResponse : ReadCloser -> option (RecordsResponse T) * option error.
Variable ctx : Context.
Variable baseParams : models.Search.

(** The wire form of a logged call. *)
Abbreviation sent :=
  (fun c : call T => ("POST", endpoint +:+ "/search", Some (fst c))).

Lemma Search_recorded (m : testing.Recorder SearchRequest) params :
  snd (services.Search T name endpoint DecodeResponse {| client := Some m |} ctx params)
  = testing.afterCall m "POST" (endpoint +:+ "/search") (Some params).
Proof.
  unfold services.Search, internal.DecodeJSON, testing.afterCall. cbn.
  destruct (testing.answers m "POST" (endpoint +:+ "/search") (Some params))
    as [[r|] [e|]]; try done. by destruct (DecodeResponse (Body r)) as [? [?|]].
Qed.

Lemma pages_recorded s o all tr res s' :
  services.pages T name endpoint DecodeResponse ctx baseParams s o all tr res s' ->
  forall m : testing.Recorder SearchRequest,
    s = {| client := Some m |} ->
    s' = {| client := Some {| testing.answers := testing.answers m;
                              testing.recorded :=
                                testing.recorded m ++ List.map sent tr |} |}.
Proof.
  induction 1 as [|s o all out s' res Hlt Hcall Hstop
                  |s o all resp s' tr res s'' Hlt Hcall Hstop Hpages IH];
    intros m ->.
  - cbn. rewrite app_nil_r. by destruct m.
  - pose proof (Search_recorded m (request baseParams o)) as Hrec.
    rewrite Hcall in Hrec. cbn in Hrec. by subst s'.
  - pose proof (Search_recorded m (request baseParams o)) as Hrec.
    rewrite Hcall in Hrec. cbn in Hrec.
    rewrite (IH _ Hrec). cbn. by rewrite <- app_assoc.
Qed.

(** X20.  What a recording client sees of one [SearchAll]: exactly one
    POST of [<endpoint>/search] per logged call, in the same order, with the
    logged request as body, and nothing else; every such request carries the
    caller's search parameters unchanged. *)
Theorem SearchAll_recorded (m : testing.Recorder SearchRequest) :
  exists r,
    services.SearchAll T name endpoint DecodeResponse {| client := Some m |}
      ctx baseParams = Some r /\
    after T r =
      {| client := Some {| testing.answers := testing.answers m;
                           testing.recorded :=
                             testing.recorded m ++ List.map sent (calls T r) |} |} /\
    Forall (fun c => SearchRequest_Search (fst c) = baseParams) (calls T r).
Proof.
  destruct (SearchAll_pages T name endpoint DecodeResponse ctx baseParams
              {| client := Some m |}) as (r & Hr & Hpages).
  exists r. split; [exact Hr|]. split; [by eapply pages_recorded|].
  eapply Forall_impl; [eapply pages_requests; exact Hpages|].
  intros c (-> & _). done.
Qed.

End SearchAllRecorded.

(** ** From the constructor to the wire *)

Section EndToEnd.
Variable Marshal : SearchRequest -> result string.
Variable checkRequest : Context -> string -> string -> option error.
Variable Wait : Limiter -> Context -> option error.
Variable Domain : Type.
Variable DecodeRecord : ReadCloser -> option Domain * option error.

(** X21.  The domain service of a client built by [NewClient], asked for
    the details of [id]: once the limiter grants a token and the request
    line made of GET and the URL text [https://api.recona.io/domains/<id>]
    is accepted, one request is handed to the HTTP client, the same
    whatever the server, without body and with the token as bearer.  When
    the server answers it with a status below 400, [GetDetails] returns what
    the decoder makes of the body; when it answers with a status of 400 or
    more whose body [text] can be read, [GetDetails] returns no record and
    the error
    [failed to get domain details for ID <id>: API error <status>: <text>]. *)
Theorem GetDetails_end_to_end (tok id : string) (c : Client) (ctx : Context) :
  NewClient tok = (Some c, None) ->
  Wait (rateLimiter c) ctx = None ->
  checkRequest ctx "GET" ("https://api.recona.io/domains/" +:+ id) = None ->
  exists req,
    Header_Get (ReqHeader req) "Authorization" = "Bearer " +:+ tok /\
    ReqBody req = None /\
    forall (Do : http.Client -> Request -> result Response) (resp : Response),
      Do (httpClient c) req = Ok resp ->
      let answer :=
        fst (DomainService.GetDetails
               (H := reconago.asClient SearchRequest Marshal Do checkRequest Wait)
               Domain DecodeRecord {| client := Some c |} ctx id) in
      (StatusCode resp < 400 ->
         answer = match DecodeRecord (Body resp) with
                  | (_, Some e) =>
                      Return (None, Some (wrapError
                        ("failed to decode domain details response: " +:+ Error e) e))
                  | (v, None) => Return (v, None)
                  end) /\
      (400 <= StatusCode resp -> failure (Body resp) = None ->
         exists err,
           answer = Return (None, Some err) /\
           Error err = ("failed to get domain details for ID " +:+ id +:+ ": ")
                         +:+ ("API error " +:+ fmt_d (StatusCode resp) +:+ ": "
                                +:+ data (Body resp))).
Proof.
  intros Hnew Hwait Hcheck.
  assert (Hc : baseURL c = "https://api.recona.io" /\ token c = tok).
  { unfold NewClient, NewClientWithOptions in Hnew.
    destruct (String.eqb tok EmptyString); [done|]. by injection Hnew as <-. }
  destruct Hc as [Hbase Htok].
  destruct (MakeAuthenticatedRequest_request SearchRequest Marshal checkRequest
              ctx "GET" ("https://api.recona.io/domains/" +:+ id) tok None I Hcheck)
    as (req & Hreq & Hcall).
  destruct (prepareRequest_fields SearchRequest Marshal checkRequest _ _ _ _ _ _ Hreq)
    as [Hauth Hbody].
  exists req. split; [exact Hauth|]. split; [exact Hbody|].
  intros Do resp Hdo. cbn zeta.
  unfold DomainService.GetDetails, services.GetDetails. cbn.
  unfold reconago.MakeRequest. rewrite Hwait, Hbase, Htok.
  change ("https://api.recona.io" +:+ "/domains" +:+ "/" +:+ id)
    with ("https://api.recona.io/domains/" +:+ id).
  rewrite Hcall, Hdo. unfold internal.classify. split.
  - intros Hlt. destruct (Z.leb_spec 400 (StatusCode resp)); [lia|].
    unfold internal.DecodeJSON. by destruct (DecodeRecord (Body resp)) as [? [?|]].
  - intros Hge Hok. destruct (Z.leb_spec 400 (StatusCode resp)); [|lia].
    unfold ReadAll. rewrite Hok. eexists. split; [reflexivity|]. reflexivity.
Qed.

End EndToEnd.

(** ** Runs of the further properties *)


(** A server that fails the page at offset 100. *)
Lemma SearchAll_error_is_last_call_witness :
  exists r pre c,
    DomainService.SearchAll ascii testing.decodeResponse
      (testing.serviceOver (testing.failingServer 300 100)) Background
      testing.someSearch = Some r /\
    calls ascii r = pre ++ [c] /\ Forall (succeeded ascii) pre /\
    exists cause, failedWith ascii c cause.
Proof.
  destruct (@SearchAll_error_is_last_call testing.MockClient testing.MockClient_Client
              ascii "domain" "/domains" testing.decodeResponse Background
              testing.someSearch (testing.serviceOver (testing.failingServer 300 100)))
    as (r & Hr & Herr).
  assert (Hres : option_map (returned ascii)
            (SearchAll ascii "domain" "/domains" testing.decodeResponse
               (testing.serviceOver (testing.failingServer 300 100)) Background
               testing.someSearch)
          = Some (Return ([], Some (pageError "domain" 100
                    (Errorf_w "failed to search domain records: "
                       (errorString "second page failed"))))))
    by (vm_compute; reflexivity).
  rewrite Hr in Hres. injection Hres as Hres.
  destruct (Herr _ _ Hres) as (_ & pre & c & cause & Hcalls & Hpre & Hc & _).
  exists r, pre, c. split; [exact Hr|]. split; [exact Hcalls|].
  split; [exact Hpre|]. exists cause. exact Hc.
Defined.

(** A server that answers the first page with 10000 records. *)
Lemma SearchAll_oversized_page_witness :
  exists r,
    DomainService.SearchAll ascii testing.decodeResponse
      (testing.serviceOver testing.flood) Background testing.someSearch = Some r /\
    returned ascii r = Return (Records (testing.pageResponse (Z.to_nat 10000)), None) /\
    List.length (calls ascii r) = 1%nat.
Proof.
  destruct (@SearchAll_oversized_page testing.MockClient testing.MockClient_Client
              ascii "domain" "/domains" testing.decodeResponse Background
              testing.someSearch (testing.serviceOver testing.flood)
              {| client := Some {| testing.respond := testing.flood;
                                   testing.Calls :=
                                     [("POST", "/domains/search",
                                       Some (pageRequest testing.someSearch 100 0))] |} |}
              (testing.pageResponse (Z.to_nat 10000)))
    as (r & Hr & Hres & Hcalls).
  - vm_compute. reflexivity.
  - vm_compute. discriminate.
  - exists r. split; [exact Hr|]. split; [exact Hres|]. rewrite Hcalls. reflexivity.
Defined.

(** The mock answers from its table, whatever calls it has recorded. *)
Lemma SearchAll_idempotent_witness :
  exists r1 r2,
    DomainService.SearchAll ascii testing.decodeResponse
      (testing.serviceOver (testing.server 150)) Background testing.someSearch = Some r1 /\
    DomainService.SearchAll ascii testing.decodeResponse
      (after ascii r1) Background testing.someSearch = Some r2 /\
    returned ascii r2 = returned ascii r1 /\ calls ascii r2 = calls ascii r1.
Proof.
  apply (@SearchAll_idempotent testing.MockClient testing.MockClient_Client
           ascii "domain" "/domains" testing.decodeResponse Background
           testing.someSearch).
  intros c ctx' method path body ctx'' method' path' body'. reflexivity.
Defined.


(** A client for the token [secret] and a server that answers every
    request with the Authorization value it was sent. *)
Lemma GetDetails_end_to_end_witness :
  fst (DomainService.GetDetails
         (H := reconago.asClient SearchRequest (fun _ => Ok "{}") testing.echo
                 testing.acceptRequest testing.grant)
         string testing.decodeRecord {| client := Some testing.someClient |}
         Background "example.com")
  = Return (Some "Bearer secret", None).
Proof.
  destruct (GetDetails_end_to_end (fun _ => Ok "{}") testing.acceptRequest
              testing.grant string testing.decodeRecord
              "secret" "example.com" testing.someClient Background
              eq_refl eq_refl eq_refl)
    as (req & Hauth & _ & Hcall).
  destruct (Hcall testing.echo _ eq_refl) as [Hlt _].
  rewrite (Hlt ltac:(done)). cbn. rewrite Hauth. reflexivity.
Defined.
